(** * benchmark.py: a timing decorator and its thread-scaling driver

    The development embeds [second assignment/part 3/benchmark.py]:

    - [Py]        the pieces of the Python runtime the program relies on
                  (exceptions, [str.endswith], truthiness, [sum], [min],
                  [max], true division, [** 2], [math.sqrt]) over an
                  abstract number type, with the binary64 instance that
                  the program runs on;
    - [Benchmark] [benchmark], [benchmark_decorator], [run] and
                  [wrapper_benchmark] as computations over an explicit
                  world (console, logging, files, trace of timed slots);
    - [Driver]    [test], [func_run] and the thread harness [wrapper].  *)

From Stdlib Require Import ZArith Lia.
From Stdlib Require Floats Uint63.
From stdpp Require Import gmap strings list pretty.

(* ===================================================================== *)
(** ** The Python runtime, as far as the program uses it                 *)
(* ===================================================================== *)

Module Py.

(** Exceptions that can surface in this program. [Uncaught] stands for
    whatever the client callable raises. *)
Inductive exn : Type :=
| ValueError (msg : string)
| AttributeError (msg : string)
| IndexError
| ZeroDivisionError
| OverflowError (msg : string)
| OSError (path : string)
| Uncaught (what : string).

(** A call either returns a value or raises. *)
Inductive outcome (A : Type) : Type :=
| Returns (a : A)
| Raises (e : exn).
Arguments Returns {A} a.
Arguments Raises {A} e.

#[global] Instance outcome_ret : MRet outcome := λ A a, Returns a.
#[global] Instance outcome_bind : MBind outcome := λ A B f m,
  match m with
  | Returns a => f a
  | Raises e => Raises e
  end.

(** Stateful code: the state is threaded, and survives a raise (what was
    printed before an exception stays printed). *)
Definition M (S A : Type) : Type := S → outcome A * S.

#[global] Instance M_ret {S} : MRet (M S) := λ A a s, (Returns a, s).
#[global] Instance M_bind {S} : MBind (M S) := λ A B f m s,
  match m s with
  | (Returns a, s') => f a s'
  | (Raises e, s') => (Raises e, s')
  end.

Definition raise {S A} (e : exn) : M S A := λ s, (Raises e, s).
Definition lift {S A} (o : outcome A) : M S A := λ s, (o, s).
Definition modify {S} (f : S → S) : M S unit := λ s, (Returns tt, f s).

(** [for i in xs: acc = body(i, acc)]: the loop stops at the first raise. *)
Fixpoint for_in {S A B} (xs : list A) (acc : B) (body : A → B → M S B) : M S B :=
  match xs with
  | [] => mret acc
  | i :: rest => acc' ← body i acc; for_in rest acc' body
  end.

(** [range(n)]: empty for [n <= 0]. *)
Definition range (n : Z) : list Z := seqZ 0 n.

(** [s.endswith(suffix)]. *)
Definition endswith (s suffix : string) : bool :=
  let n := String.length s in
  let m := String.length suffix in
  (m <=? n)%nat && String.eqb (String.substring (n - m) m s) suffix.

(** [csv_file.endswith(suffix)] where [csv_file] may be [None]. *)
Definition attr_endswith (o : option string) (suffix : string) : outcome bool :=
  match o with
  | None => Raises (AttributeError "'NoneType' object has no attribute 'endswith'")
  | Some s => Returns (endswith s suffix)
  end.

(** Truth value of a [str]-or-[None]: [None] and [''] are falsy. *)
Definition truthy (o : option string) : bool :=
  match o with
  | None => false
  | Some s => negb (String.eqb s "")
  end.

(** [xs[i]] for a list and a non-negative index. *)
Definition getitem {A} (xs : list A) (i : Z) : outcome A :=
  match xs !! Z.to_nat i with
  | Some x => Returns x
  | None => Raises IndexError
  end.

(** The arithmetic the statistics are computed with.  The program runs it on
    Python floats; the operations are kept abstract, so that what does not
    depend on the number format is proved once and for all:
    [num_zero] is the int [0] as a number, [num_of_int] the conversion of an
    int operand (which can raise), [num_pow2 x] is [x ** 2] (which can
    raise). *)
Class Arith (T : Type) : Type := {
  num_zero : T;
  num_of_int : Z → outcome T;
  num_add : T → T → T;
  num_sub : T → T → T;
  num_pow2 : T → outcome T;
  num_div : T → T → T;
  num_sqrt : T → T;
  num_lt : T → T → bool
}.

Section Builtins.
Context {T : Type} `{Arith T}.

(** [sum(xs)]: left to right, starting from the integer [0].  (From
    CPython 3.12 on, [sum] adds a compensation term to a float total; the
    scenarios evaluated at the end give the same values either way.) *)
Definition py_sum (xs : list T) : T := fold_left num_add xs num_zero.

(** [min(xs)]: keeps the first of equal candidates; raises on []. *)
Definition py_min (xs : list T) : outcome T :=
  match xs with
  | [] => Raises (ValueError "min() arg is an empty sequence")
  | x :: rest => Returns (fold_left (λ m y, if num_lt y m then y else m) rest x)
  end.

(** [max(xs)]. *)
Definition py_max (xs : list T) : outcome T :=
  match xs with
  | [] => Raises (ValueError "max() arg is an empty sequence")
  | x :: rest => Returns (fold_left (λ m y, if num_lt m y then y else m) rest x)
  end.

(** [x / n] for a float [x] and an int [n]: the int is converted, and a
    zero divisor is an error. *)
Definition truediv (x : T) (n : Z) : outcome T :=
  d ← num_of_int n;
  if (n =? 0)%Z then Raises ZeroDivisionError else Returns (num_div x d).

(** [x ** 2]. *)
Definition pow2 (x : T) : outcome T := num_pow2 x.

(** [math.sqrt(x)]: a negative argument is a domain error. *)
Definition math_sqrt (x : T) : outcome T :=
  if num_lt x num_zero then Raises (ValueError "math domain error")
  else Returns (num_sqrt x).

End Builtins.

(** Python floats: IEEE 754 binary64, round to nearest even. *)

(** The float nearest to an int, ties to even; an infinity past the
    largest float. *)
Definition float_of_Z (z : Z) : PrimFloat.float :=
  FloatOps.SF2Prim (SpecFloat.binary_normalize FloatOps.prec FloatOps.emax z 0 false).

(** An int operand of a float operation: CPython converts it to the nearest
    float and raises where there is none. *)
Definition float_of_int (z : Z) : outcome PrimFloat.float :=
  let x := float_of_Z z in
  if PrimFloat.is_infinity x then Raises (OverflowError "int too large to convert to float")
  else Returns x.

(** The C library of the platform, as far as the program reaches it:
    [pow_2 a] is [pow(a, 2.0)].  Its value is not fixed bit for bit by any
    standard, so it is a parameter of the model. *)
Class Libm : Type := pow_2 : PrimFloat.float → PrimFloat.float.

(** [x ** 2] on a float, as CPython's [float_pow] computes it: NaN,
    infinities, zeros and a base of absolute value 1 are sorted out first;
    the library's [pow] is then called on the absolute value (the exponent
    is even), and a result that has overflowed to infinity is turned into
    an [OverflowError].  (The library is taken to report a range error on
    overflow only, as glibc does: an underflow is not an error.) *)
Definition float_pow2 `{Libm} (x : PrimFloat.float) : outcome PrimFloat.float :=
  match FloatOps.Prim2SF x with
  | SpecFloat.S754_nan => Returns x
  | SpecFloat.S754_infinity _ => Returns (PrimFloat.abs x)
  | SpecFloat.S754_zero _ => Returns PrimFloat.zero
  | SpecFloat.S754_finite _ _ _ =>
      let a := PrimFloat.abs x in
      if PrimFloat.eqb a PrimFloat.one then Returns PrimFloat.one
      else
        let r := pow_2 a in
        if PrimFloat.is_infinity r
        then Raises (OverflowError "(34, 'Numerical result out of range')")
        else Returns r
  end.

#[global] Instance float_arith `{Libm} : Arith PrimFloat.float := {|
  num_zero := PrimFloat.zero;
  num_of_int := float_of_int;
  num_add := PrimFloat.add;
  num_sub := PrimFloat.sub;
  num_pow2 := float_pow2;
  num_div := PrimFloat.div;
  num_sqrt := PrimFloat.sqrt;
  num_lt := PrimFloat.ltb
|}.

End Py.

(* ===================================================================== *)
(** ** The measurement wrapper                                           *)
(* ===================================================================== *)

Module Benchmark.
Import Py.

(** The level of the root logger, as far as the program moves it. *)
Inductive loglevel : Type := INFO | WARNING.

(** What the program prints on the console, one constructor per [print]. *)
Inductive console (T : Type) : Type :=
| Banner (fname : string)
| TableHeader
| TableRule
| TableRow (name : string) (iter warmups : Z) (time_min time_max avg var stdev : T)
| EndBanner
| Progress (name : string) (n_threads n_iter : Z).
Arguments Banner {T} fname.
Arguments TableHeader {T}.
Arguments TableRule {T}.
Arguments TableRow {T} name iter warmups time_min time_max avg var stdev.
Arguments EndBanner {T}.
Arguments Progress {T} name n_threads n_iter.

(** A record handed to [logging.info]. *)
Record log_record (T : Type) : Type := LogRecord {
  log_warmup : bool;
  log_num : Z;
  log_fname : string;
  log_elapsed : T
}.
Arguments LogRecord {T} _ _ _ _.

(** One timed slot of an invocation: the phase, the loop index, and how the
    call of the wrapped callable ended (its elapsed time, or what it raised). *)
Record slot (T : Type) : Type := Slot {
  is_warmup : bool;
  index : Z;
  result : outcome T
}.
Arguments Slot {T} _ _ _.
Arguments is_warmup {T} _.
Arguments index {T} _.
Arguments result {T} _.

(** The world the wrapper acts on: [env] is everything the wrapped callable
    and the clock can see, the other fields are the wrapper's own outputs and
    the process-wide logging configuration; [history] is the trace of slots. *)
Record world (E T : Type) : Type := World {
  env : E;
  stdout : list (console T);
  root_handlers : bool;
  root_level : loglevel;
  stderr : list (log_record T);
  files : gmap string (list string);
  history : list (slot T)
}.
Arguments World {E T} _ _ _ _ _ _ _.
Arguments env {E T} _.
Arguments stdout {E T} _.
Arguments root_handlers {E T} _.
Arguments root_level {E T} _.
Arguments stderr {E T} _.
Arguments files {E T} _.
Arguments history {E T} _.

(** A callable applied to the [repr]s of its positional arguments. *)
Record callable (E : Type) : Type := Callable {
  fn_name : string;
  fn_call : list string → E → outcome unit * E
}.
Arguments Callable {E} _ _.
Arguments fn_name {E} _.
Arguments fn_call {E} _ _ _.

(** The keyword arguments of [benchmark]; [None] is an omitted argument. *)
Record kwargs : Type := Kwargs {
  kw_warmups : option Z;
  kw_iter : option Z;
  kw_verbose : option bool;
  kw_csv_file : option string
}.

(** The five aggregate statistics. *)
Record stats (T : Type) : Type := Stats {
  time_min : T;
  time_max : T;
  avg : T;
  var : T;
  stdev : T
}.
Arguments Stats {T} _ _ _ _ _.
Arguments time_min {T} _.
Arguments time_max {T} _.
Arguments avg {T} _.
Arguments var {T} _.
Arguments stdev {T} _.

Section Wrapper.
Context {E T : Type} `{Arith T}.

(** [time.perf_counter()], [str] of a float, and whether [open(path, 'w')]
    succeeds, all given by the environment. *)
Variable perf_counter : E → T * E.
Variable str_float : T → string.
Variable can_open : string → bool.

#[local] Abbreviation world := (world E T).

Definition set_env (e : E) (w : world) : world :=
  World e (stdout w) (root_handlers w) (root_level w) (stderr w) (files w) (history w).
Definition set_logging (h : bool) (l : loglevel) (w : world) : world :=
  World (env w) (stdout w) h l (stderr w) (files w) (history w).
Definition set_files (fs : gmap string (list string)) (w : world) : world :=
  World (env w) (stdout w) (root_handlers w) (root_level w) (stderr w) fs (history w).
Definition emit (r : log_record T) (w : world) : world :=
  World (env w) (stdout w) (root_handlers w) (root_level w) (stderr w ++ [r]) (files w) (history w).
Definition note (s : slot T) (w : world) : world :=
  World (env w) (stdout w) (root_handlers w) (root_level w) (stderr w) (files w) (history w ++ [s]).

(** [print(...)] on the console. *)
Definition print (c : console T) : M world unit :=
  modify (λ w, World (env w) (stdout w ++ [c]) (root_handlers w) (root_level w)
                     (stderr w) (files w) (history w)).

(** Lines 36-40. [logging.basicConfig] configures the root logger only while
    it has no handler; [setLevel] always applies. *)
Definition set_verbosity (verbose : bool) : M world unit :=
  modify (λ w,
    if verbose then
      if root_handlers w then w else set_logging true INFO w
    else set_logging (root_handlers w) WARNING w).

(** [logging.info(...)]: installs a default handler when there is none, and
    emits the record when the root level lets INFO through. *)
Definition logging_info (r : log_record T) : M world unit :=
  modify (λ w,
    let w1 := set_logging true (root_level w) w in
    match root_level w1 with
    | INFO => emit r w1
    | WARNING => w1
    end).

(** Lines 73-78. *)
Definition statistics (iter : Z) (times : list T) : outcome (stats T) :=
  time_min ← py_min times;
  time_max ← py_max times;
  avg ← truediv (py_sum times) iter;
  var_list ← mapM (λ x, pow2 (num_sub x avg)) times;
  var ← truediv (py_sum var_list) iter;
  stdev ← math_sqrt var;
  mret (Stats time_min time_max avg var stdev).

(** [open(path, 'w')]: truncates. *)
Definition open_w (path : string) : M world unit := λ w,
  if can_open path then (Returns tt, set_files (<[path := []]> (files w)) w)
  else (Raises (OSError path), w).

(** [print(line, file=source)]. *)
Definition print_to (path line : string) : M world unit :=
  modify (λ w, set_files (<[path := default [] (files w !! path) ++ [line]]> (files w)) w).

Section Wrapped.
Variables (warmups iter : Z) (verbose : bool) (csv_file : option string).
Variable func : callable E.

(** Lines 48-58: one timed execution. *)
Definition run (args : list string) (fname : string) (is_warmup : bool) (i : Z)
  : M world T := λ w,
  let '(start_time, e1) := perf_counter (env w) in
  match fn_call func args e1 with
  | (Raises x, e2) => (Raises x, note (Slot is_warmup i (Raises x)) (set_env e2 w))
  | (Returns _, e2) =>
      let '(stop_time, e3) := perf_counter e2 in
      let elapsed := num_sub stop_time start_time in
      (logging_info (LogRecord is_warmup (i + 1) fname elapsed) ;; mret elapsed)
        (note (Slot is_warmup i (Returns elapsed)) (set_env e3 w))
  end.

(** Lines 94-102. *)
Definition write_csv (path : string) (warmup_times times : list T) : M world unit :=
  open_w path ;;
  print_to path "run num, is warmup, timing" ;;
  for_in (range warmups) tt (λ i _,
    x ← lift (getitem warmup_times i);
    print_to path (pretty (i + 1)%Z +:+ ", y, " +:+ str_float x)) ;;
  for_in (range iter) tt (λ i _,
    x ← lift (getitem times i);
    print_to path (pretty (i + 1)%Z +:+ ", n, " +:+ str_float x)) ;;
  mret tt.

(** Lines 32-104. *)
Definition wrapper_benchmark (args : list string) : M world unit :=
  set_verbosity verbose ;;
  let name := fn_name func in
  let arg_str := String.concat ", " args in
  let fname := name +:+ "(" +:+ arg_str +:+ ")" in
  print (Banner fname) ;;
  warmup_times ← for_in (range warmups) [] (λ i acc,
    t ← run args fname true i; mret (acc ++ [t]));
  times ← for_in (range iter) [] (λ i acc,
    t ← run args fname false i; mret (acc ++ [t]));
  st ← lift (statistics iter times);
  print TableHeader ;;
  print TableRule ;;
  print (TableRow fname iter warmups (time_min st) (time_max st) (avg st) (var st) (stdev st)) ;;
  (if truthy csv_file then write_csv (default "" csv_file) warmup_times times
   else mret tt) ;;
  print EndBanner.

(** Lines 20-106: applying the decorator to [func]. *)
Definition benchmark_decorator : M world (list string → M world unit) :=
  if (warmups <? 0)%Z then
    raise (ValueError "`warmups` argument is invalid (must be >= 0)")
  else if (iter <=? 0)%Z then
    raise (ValueError "`iter` argument is invalid (must be >= 0)")
  else
    ok ← lift (attr_endswith csv_file ".csv");
    if negb ok then raise (ValueError "`csv_file` is not a valid csv filename")
    else mret wrapper_benchmark.

End Wrapped.

(** Lines 9-107: [benchmark(...)] only builds the decorator. *)
Definition benchmark (kw : kwargs)
  : M world (callable E → M world (list string → M world unit)) :=
  let warmups := default 0%Z (kw_warmups kw) in
  let iter := default 1%Z (kw_iter kw) in
  let verbose := default false (kw_verbose kw) in
  let csv_file := kw_csv_file kw in
  mret (benchmark_decorator warmups iter verbose csv_file).

(** [@benchmark(...)] over [def func]: the decorator is built, then applied. *)
Definition decorated (kw : kwargs) (func : callable E)
  : M world (list string → M world unit) :=
  decorate ← benchmark kw; decorate func.

End Wrapper.

End Benchmark.

(* ===================================================================== *)
(** ** The scaling driver                                                *)
(* ===================================================================== *)

Module Driver.
Import Py Benchmark.

(** The environment of the driver: the workload's own environment, and the
    number of times the workload has been invoked so far. *)
Record tally (E : Type) : Type := Tally {
  inner : E;
  invocations : nat
}.
Arguments Tally {E} _ _.
Arguments inner {E} _.
Arguments invocations {E} _.

Section Test.
Context {E T : Type} `{Arith T}.
Variable perf_counter : E → T * E.
Variable str_float : T → string.
Variable can_open : string → bool.

(** The workload handed to [test]. *)
Variable func : callable E.

Definition clock (t : tally E) : T * tally E :=
  let '(x, e) := perf_counter (inner t) in (x, Tally e (invocations t)).

(** [func()] inside a worker. *)
Definition call_func : M (tally E) unit := λ t,
  let '(o, e) := fn_call func [] (inner t) in (o, Tally e (S (invocations t))).

(** Lines 125-127. *)
Definition iterate_f (n_iter : Z) : M (tally E) unit :=
  for_in (range n_iter) tt (λ _ _, call_func).

(** A started thread runs its target; an exception in the target ends that
    thread only.  The threads are run in start order, one admissible
    schedule; [interleave] below covers the others. *)
Definition thread_run (target : M (tally E) unit) : M (tally E) unit := λ t,
  let '(_, t') := target t in (Returns tt, t').

(** Any other schedule, at the grain of calls of [func]: the schedule
    names, step by step, the thread that makes its next call; [remaining]
    holds the number of calls each thread has yet to make, and a thread
    whose call raises makes no further call. *)
Fixpoint interleave (schedule : list nat) (remaining : list nat) (t : tally E)
  : list nat * tally E :=
  match schedule with
  | [] => (remaining, t)
  | k :: rest =>
      match remaining !! k with
      | Some (S r) =>
          let '(o, t') := call_func t in
          let r' := match o with Returns _ => r | Raises _ => 0 end in
          interleave rest (<[k := r']> remaining) t'
      | _ => interleave rest remaining t
      end
  end.

(** Lines 124-134: the harness, [wrapper]. *)
Definition wrapper (n_threads n_iter : Z) : callable (tally E) :=
  Callable "wrapper" (λ _,
    let threads := (λ _, iterate_f n_iter) <$> range n_threads in
    for_in threads tt (λ t _, thread_run t) ;;
    for_in threads tt (λ t _, mret tt)).

Definition csv_name (n_threads n_iter : Z) : string :=
  "f_" +:+ pretty n_threads +:+ "_" +:+ pretty n_iter +:+ ".csv".

(** Lines 121-136. *)
Definition func_run (n_threads n_iter : Z)
  : M (world (tally E) T) (list string → M (world (tally E) T) unit) :=
  print (Progress (fn_name func) n_threads n_iter) ;;
  decorate ← benchmark clock str_float can_open
    (Kwargs None (Some n_iter) None (Some (csv_name n_threads n_iter)));
  decorate (wrapper n_threads n_iter).

(** One trial: [func_run(n_threads, n_iter)()]. *)
Definition trial (n_threads n_iter : Z) : M (world (tally E) T) unit :=
  wrapped ← func_run n_threads n_iter; wrapped [].

(** The four trials of lines 138-141, in order. *)
Definition trials : list (Z * Z) := [(1, 16); (2, 8); (4, 4); (8, 2)]%Z.

(** Lines 138-141. *)
Definition test : M (world (tally E) T) unit :=
  trial 1 16 ;; trial 2 8 ;; trial 4 4 ;; trial 8 2.

End Test.

End Driver.

(* ===================================================================== *)
(** ** Reference notions and concrete scenarios                          *)
(* ===================================================================== *)

Module Reference.
Import Py Benchmark.

Section Population.
Context {T : Type} `{Arith T}.

(** The sample count [n] of a sequence, as a number. *)
Definition count (xs : list T) : outcome T := num_of_int (Z.of_nat (length xs)).

(** Arithmetic mean. *)
Definition mean (xs : list T) : outcome T :=
  n ← count xs; mret (num_div (py_sum xs) n).

(** The squared deviations of the sample from a value [m]. *)
Definition squared_deviations (m : T) (xs : list T) : outcome (list T) :=
  mapM (λ x, num_pow2 (num_sub x m)) xs.

(** Population variance: the sum of the squared deviations from the mean,
    divided by the sample count [n]. *)
Definition population_variance (xs : list T) : outcome T :=
  m ← mean xs;
  squares ← squared_deviations m xs;
  n ← count xs;
  mret (num_div (py_sum squares) n).

(** Sample variance: the same sum divided by [n - 1]. *)
Definition sample_variance (xs : list T) : outcome T :=
  m ← mean xs;
  squares ← squared_deviations m xs;
  n ← num_of_int (Z.of_nat (length xs) - 1);
  mret (num_div (py_sum squares) n).

(** The slots of one phase, in index order, with their timings. *)
Definition slots (warm : bool) (ts : list T) : list (slot T) :=
  imap (λ k t, Slot warm (Z.of_nat k) (Returns t)) ts.

End Population.

(** The data lines of the CSV file for one phase. *)
Definition csv_lines {T} (str_float : T → string) (flag : string) (ts : list T)
  : list string :=
  imap (λ k t, pretty (Z.of_nat k + 1)%Z +:+ ", " +:+ flag +:+ ", " +:+ str_float t) ts.

Definition csv_header : string := "run num, is warmup, timing".

(** A configuration the decorator rejects with its own [ValueError]. *)
Definition invalid (warmups iter : Z) (csv_file : option string) : Prop :=
  (warmups < 0)%Z ∨ (iter ≤ 0)%Z ∨ ∃ s, csv_file = Some s ∧ endswith s ".csv" = false.

End Reference.

Module Scenario.
Import Py Benchmark Driver.

(** A C library whose [pow] is correctly rounded at the exponent 2: the
    square is then the rounded product. *)
#[export] Instance correctly_rounded : Libm := λ a, PrimFloat.mul a a.

(** A process whose clock readings are scripted: the environment is the
    number of readings taken so far. *)
Definition scripted (readings : nat → PrimFloat.float) (k : nat)
  : PrimFloat.float * nat := (readings k, S k).

(** A clock that advances by half a second per reading. *)
Definition half_seconds (k : nat) : PrimFloat.float :=
  PrimFloat.div (float_of_Z (Z.of_nat k)) (float_of_Z 2).

(** [str] of a float, left opaque. *)
Definition str_any (x : PrimFloat.float) : string := "<t>".

Definition writable (path : string) : bool := true.

(** A clock whose readings are the squares 0, 1, 4, 9, ...: the timed
    execution that starts at reading [2 j] takes [4 j + 1] seconds. *)
Definition square_seconds (k : nat) : PrimFloat.float :=
  float_of_Z (Z.of_nat (k * k)).

(** A callable that returns at once, and one that raises at once. *)
Definition quick : callable nat := Callable "f" (λ _ e, (Returns tt, e)).
Definition failing : callable nat := Callable "f" (λ _ e, (Raises (Uncaught "boom"), e)).

(** A callable that leaves a mark of 100 on the environment at each call,
    and raises once a thousand has been reached. *)
Definition busy : callable nat :=
  Callable "f" (λ _ e,
    if e <? 1000 then (Returns tt, e + 100) else (Raises (Uncaught "tired"), e)).

(** A fresh process: nothing printed, default logging, no files. *)
Definition fresh {E} (e : E) : world E PrimFloat.float :=
  World e [] false WARNING [] ∅ [].

(** The float [0.1], that is [1 / 10] rounded to binary64. *)
Definition tenth : PrimFloat.float := PrimFloat.div (float_of_Z 1) (float_of_Z 10).

(** Six increasing clock readings whose three differences are all [0.1]:
    0, 0.1, 0.1, 0.2, the float after 0.2, and that float plus 0.1. *)
Definition three_tenths (k : nat) : PrimFloat.float :=
  let fifth := PrimFloat.add tenth tenth in
  match k with
  | 0 => float_of_Z 0
  | 1 => tenth
  | 2 => tenth
  | 3 => fifth
  | 4 => PrimFloat.next_up fifth
  | _ => PrimFloat.add (PrimFloat.next_up fifth) tenth
  end.

(** [@benchmark(warmups=2, iter=3, verbose=True, csv_file='out.csv')] over
    [quick], called with one argument in a fresh process. *)
Definition sample_run : outcome unit * world nat PrimFloat.float :=
  wrapper_benchmark (scripted half_seconds) str_any writable
    2 3 true (Some "out.csv") quick ["20"] (fresh 0).

(** The same invocation on the clock of squares: the warmup slots take 1
    and 5 seconds, the measured slots 9, 13 and 17. *)
Definition varied_run : outcome unit * world nat PrimFloat.float :=
  wrapper_benchmark (scripted square_seconds) str_any writable
    2 3 true (Some "out.csv") quick ["20"] (fresh 0).

(** The same decorator over [failing], with no warmup and one iteration. *)
Definition failed_run : outcome unit * world nat PrimFloat.float :=
  wrapper_benchmark (scripted half_seconds) str_any writable
    0 1 false (Some "out.csv") failing [] (fresh 0).

(** [test(quick)] and its first trial, in a fresh process. *)
Definition first_trial : outcome unit * world (tally nat) PrimFloat.float :=
  trial (scripted half_seconds) str_any writable quick 1 16 (fresh (Tally 0 0)).

Definition test_run : outcome unit * world (tally nat) PrimFloat.float :=
  test (scripted half_seconds) str_any writable quick (fresh (Tally 0 0)).

End Scenario.

(* ===================================================================== *)
(** ** Facts about the runtime                                           *)
(* ===================================================================== *)

Module PyFacts.
Import Py.

Lemma bind_run {S A B} (m : M S A) (f : A → M S B) (s : S) :
  (m ≫= f) s =
  match m s with
  | (Returns a, s') => f a s'
  | (Raises e, s') => (Raises e, s')
  end.
Proof. reflexivity. Qed.

Lemma for_in_cons {S A B} (i : A) (xs : list A) (acc : B) (body : A → B → M S B) (s : S) :
  for_in (i :: xs) acc body s =
  match body i acc s with
  | (Returns acc', s') => for_in xs acc' body s'
  | (Raises e, s') => (Raises e, s')
  end.
Proof. reflexivity. Qed.




(** [range(n)] counts from 0. *)
Lemma range_lookup (n : Z) (k : nat) :
  k < Z.to_nat n → range n !! k = Some (Z.of_nat k).
Proof.
  intros Hk. unfold range. rewrite lookup_seqZ. split; lia.
Qed.

Lemma range_length (n : Z) : length (range n) = Z.to_nat n.
Proof. unfold range. apply length_seqZ. Qed.

(** Pairing [range(n)] with a list numbers the list from 0. *)
Lemma zip_range {A B} (f : Z → A → B) (n : Z) (ts : list A) :
  length ts ≤ Z.to_nat n →
  zip_with f (range n) ts = imap (λ k t, f (Z.of_nat k) t) ts.
Proof.
  intros Hlen. apply list_eq. intros k.
  rewrite lookup_zip_with, list_lookup_imap.
  destruct (ts !! k) as [t|] eqn:Ht; simpl.
  - apply lookup_lt_Some in Ht as Hk.
    by rewrite range_lookup by lia.
  - by destruct (range n !! k).
Qed.

End PyFacts.

(* ===================================================================== *)
(** ** How one invocation of the wrapper can end                         *)
(* ===================================================================== *)

Module BenchmarkFacts.
Import Py PyFacts Benchmark Reference.

Section Invocation.
Context {E T : Type} `{Arith T}.
Variable perf_counter : E → T * E.
Variable str_float : T → string.
Variable can_open : string → bool.
Variables (warmups iter : Z) (verbose : bool) (csv_file : option string).
Variable func : callable E.
Variable args : list string.

#[local] Abbreviation world := (world E T).

(** The name under which the run is reported (lines 42-44). *)
Definition display_name : string :=
  fn_name func +:+ "(" +:+ String.concat ", " args +:+ ")".

(** The callable can raise [e]: some environment makes it do so. *)
Definition can_raise (e : exn) : Prop :=
  ∃ ev, (fn_call func args ev).1 = Raises e.

(** What one timed execution that returns does to the environment: a clock
    reading, the call, a clock reading. *)
Definition tick (e : E) : E :=
  (perf_counter (fn_call func args (perf_counter e).2).2).2.

(** How the call of a timed execution started in environment [e] ends. *)
Definition call_at (e : E) : outcome unit :=
  (fn_call func args (perf_counter e).2).1.

(** The time that a timed execution started in environment [e] measures:
    the reading after the call less the reading before it. *)
Definition elapsed_at (e : E) : T :=
  num_sub (perf_counter (fn_call func args (perf_counter e).2).2).1
          (perf_counter e).1.

Lemma logging_info_frame (r : log_record T) (w : world) :
  (logging_info r w).1 = Returns tt ∧
  stdout (logging_info r w).2 = stdout w ∧
  files (logging_info r w).2 = files w ∧
  history (logging_info r w).2 = history w ∧
  env (logging_info r w).2 = env w.
Proof.
  unfold logging_info, modify; simpl.
  by destruct (root_level w).
Qed.

(** One timed execution adds one slot to the history, and nothing to the
    console or the files. *)
Lemma run_behaviour (fname : string) (b : bool) (i : Z) (w : world) :
  let r := run perf_counter func args fname b i w in
  stdout r.2 = stdout w ∧ files r.2 = files w ∧
  match r.1 with
  | Returns t => history r.2 = history w ++ [Slot b i (Returns t)] ∧
                 env r.2 = tick (env w) ∧ t = elapsed_at (env w)
  | Raises e => history r.2 = history w ++ [Slot b i (Raises e)] ∧ can_raise e ∧
                call_at (env w) = Raises e
  end.
Proof.
  unfold run, tick, call_at, elapsed_at.
  destruct (perf_counter (env w)) as [t0 e1]. cbn [fst snd].
  destruct (fn_call func args e1) as [[[]|x] e2] eqn:Hcall; cbn [fst snd].
  - destruct (perf_counter e2) as [t1 e3].
    rewrite bind_run.
    match goal with |- context [logging_info ?r ?w0] =>
      destruct (logging_info_frame r w0) as (Ho & Hs & Hf & Hh & He);
      destruct (logging_info r w0) as [o w1] end.
    simpl in *. subst o. simpl. by rewrite Hs, Hf, Hh, He.
  - simpl. repeat split; try done. exists e1. by rewrite Hcall.
Qed.

(** The loop body of a phase (lines 62-63 and 67-68). *)
Definition phase (fname : string) (b : bool) (i : Z) (acc : list T) : M world (list T) :=
  t ← run perf_counter func args fname b i; mret (acc ++ [t]).

Lemma phase_run (fname : string) (b : bool) (i : Z) (acc : list T) (w : world) :
  phase fname b i acc w =
  match run perf_counter func args fname b i w with
  | (Returns t, w1) => (Returns (acc ++ [t]), w1)
  | (Raises e, w1) => (Raises e, w1)
  end.
Proof. reflexivity. Qed.

(** A phase runs its slots in order and stops at the first one that raises. *)
Lemma phase_behaviour (fname : string) (b : bool) (xs : list Z) :
  ∀ (acc : list T) (w : world),
  let r := for_in xs acc (phase fname b) w in
  stdout r.2 = stdout w ∧ files r.2 = files w ∧
  match r.1 with
  | Returns out => ∃ ts, out = acc ++ ts ∧ length ts = length xs ∧
      history r.2 = history w ++ zip_with (λ i t, Slot b i (Returns t)) xs ts ∧
      env r.2 = Nat.iter (length xs) tick (env w) ∧
      (∀ k t, ts !! k = Some t → t = elapsed_at (Nat.iter k tick (env w)))
  | Raises e => ∃ ts i, length ts < length xs ∧ xs !! length ts = Some i ∧
      history r.2 = history w ++ zip_with (λ i t, Slot b i (Returns t)) xs ts
                              ++ [Slot b i (Raises e)] ∧ can_raise e ∧
      call_at (Nat.iter (length ts) tick (env w)) = Raises e
  end.
Proof.
  induction xs as [|i xs IH]; intros acc w.
  - simpl. repeat split; try done. exists []. by rewrite !app_nil_r.
  - rewrite for_in_cons, phase_run.
    pose proof (run_behaviour fname b i w) as Hrun. simpl in Hrun.
    destruct (run perf_counter func args fname b i w) as [[t|e] w1].
    + simpl in Hrun. destruct Hrun as (Hs & Hf & Hh & He & Ht).
      specialize (IH (acc ++ [t]) w1). simpl in IH.
      destruct (for_in xs (acc ++ [t]) (phase fname b) w1) as [[out|e] w2];
        simpl in *; destruct IH as (Hs2 & Hf2 & IH).
      * repeat split; try congruence.
        destruct IH as (ts & -> & Hlen & Hh2 & He2 & Hts).
        exists (t :: ts). simpl. rewrite <- app_assoc. repeat split; try done.
        -- by rewrite Hlen.
        -- rewrite Hh2, Hh, <- app_assoc. done.
        -- rewrite He2, He. symmetry. apply (Nat.iter_succ_r (length xs) tick).
        -- intros [|k] t' Hk; simpl in Hk.
           ++ by injection Hk as <-.
           ++ rewrite Nat.iter_succ_r, <- He. by apply Hts.
      * repeat split; try congruence.
        destruct IH as (ts & j & Hlen & Hj & Hh2 & Hr & Hat).
        exists (t :: ts), j. cbn [length]. repeat split; try done.
        -- lia.
        -- rewrite Hh2, Hh, <- !app_assoc. done.
        -- rewrite Nat.iter_succ_r, <- He. exact Hat.
    + simpl in *. destruct Hrun as (Hs & Hf & Hh & Hr & Hat).
      repeat split; try done.
      exists [], i. simpl. repeat split; try done. lia.
Qed.

Lemma set_verbosity_frame (w : world) :
  (set_verbosity verbose w).1 = Returns tt ∧
  stdout (set_verbosity verbose w).2 = stdout w ∧
  files (set_verbosity verbose w).2 = files w ∧
  history (set_verbosity verbose w).2 = history w ∧
  env (set_verbosity verbose w).2 = env w.
Proof.
  unfold set_verbosity, modify; simpl.
  destruct verbose; [destruct (root_handlers w)|]; done.
Qed.

Lemma print_run (c : console T) (w : world) :
  print c w =
  (Returns tt, World (env w) (stdout w ++ [c]) (root_handlers w) (root_level w)
                     (stderr w) (files w) (history w)).
Proof. reflexivity. Qed.

Lemma range_seq (n : Z) : range n = Z.of_nat <$> seq 0 (Z.to_nat n).
Proof.
  unfold range, seqZ. apply list_fmap_ext. intros _ k _. lia.
Qed.

(** The body of the loops of lines 97-101. *)
Definition csv_row (path : string) (line : Z → T → string) (ts : list T)
    (i : Z) (_ : unit) : M world unit :=
  x ← lift (getitem ts i); print_to path (line i x).

Lemma csv_row_run (path : string) (line : Z → T → string) (ts : list T)
    (i : Z) (x : T) (old : list string) (w : world) :
  ts !! Z.to_nat i = Some x →
  files w !! path = Some old →
  csv_row path line ts i tt w =
  (Returns tt, set_files (<[path := old ++ [line i x]]> (files w)) w).
Proof.
  intros Hx Hold. unfold csv_row. rewrite bind_run.
  unfold lift, getitem, print_to, modify. by rewrite Hx, Hold.
Qed.

(** One loop of lines 97-101: a line per index, appended to the file. *)
Lemma csv_loop_from (path : string) (line : Z → T → string) (ts : list T) (m : nat) :
  ∀ (j : nat) (old : list string) (w : world),
  j + m = length ts →
  files w !! path = Some old →
  let r := for_in (Z.of_nat <$> seq j m) tt (csv_row path line ts) w in
  r.1 = Returns tt ∧ stdout r.2 = stdout w ∧ history r.2 = history w ∧
  env r.2 = env w ∧
  files r.2 = <[path := old ++ imap (λ k t, line (Z.of_nat (j + k)) t) (drop j ts)]> (files w).
Proof.
  induction m as [|m IH]; intros j old w Hlen Hold.
  - simpl. repeat split; try done.
    rewrite drop_ge by lia. simpl. rewrite app_nil_r.
    symmetry. by apply insert_id.
  - rewrite <- cons_seq, fmap_cons, for_in_cons.
    destruct (ts !! j) as [x|] eqn:Hx;
      [|apply lookup_ge_None in Hx; lia].
    rewrite (csv_row_run path line ts (Z.of_nat j) x old w)
      by (by rewrite ?Nat2Z.id).
    set (w1 := set_files _ w).
    destruct (IH (S j) (old ++ [line (Z.of_nat j) x]) w1) as (Ho & Hs & Hh & He & Hf).
    { lia. }
    { subst w1. simpl. apply lookup_insert_eq. }
    cbv zeta. repeat split; try done.
    rewrite Hf. subst w1. simpl.
    rewrite insert_insert_eq. f_equal.
    rewrite (drop_S _ _ _ Hx). simpl. rewrite <- app_assoc. simpl.
    rewrite Nat.add_0_r. do 2 f_equal.
    apply imap_ext. intros k t _. simpl. do 2 f_equal. lia.
Qed.

Lemma csv_loop (path : string) (line : Z → T → string) (ts : list T) (n : Z)
    (old : list string) (w : world) :
  length ts = Z.to_nat n →
  files w !! path = Some old →
  let r := for_in (range n) tt (csv_row path line ts) w in
  r.1 = Returns tt ∧ stdout r.2 = stdout w ∧ history r.2 = history w ∧
  env r.2 = env w ∧
  files r.2 = <[path := old ++ imap (λ k t, line (Z.of_nat k) t) ts]> (files w).
Proof.
  intros Hlen Hold. rewrite range_seq.
  apply (csv_loop_from path line ts (Z.to_nat n) 0 old w); [lia | done].
Qed.

(** Lines 94-102: the file is opened, then holds the header and one line per
    recorded timing, warmups first. *)
Lemma write_csv_behaviour (path : string) (wts mts : list T) (w : world) :
  length wts = Z.to_nat warmups →
  length mts = Z.to_nat iter →
  let r := write_csv str_float can_open warmups iter path wts mts w in
  stdout r.2 = stdout w ∧ history r.2 = history w ∧ env r.2 = env w ∧
  if can_open path then
    r.1 = Returns tt ∧
    files r.2 = <[path := csv_header :: csv_lines str_float "y" wts
                                     ++ csv_lines str_float "n" mts]> (files w)
  else r.1 = Raises (OSError path) ∧ files r.2 = files w.
Proof.
  intros Hw Hm. cbv zeta.
  destruct (write_csv _ _ _ _ _ _ _ w) as [o w'] eqn:Hrun. simpl.
  unfold write_csv in Hrun. rewrite bind_run in Hrun. unfold open_w in Hrun.
  destruct (can_open path); [|by injection Hrun as <- <-].
  rewrite bind_run in Hrun. unfold print_to at 1, modify in Hrun.
  cbn [files set_files] in Hrun.
  rewrite lookup_insert_eq in Hrun. simpl default in Hrun.
  rewrite bind_run in Hrun.
  match type of Hrun with context [for_in (range warmups) tt _ ?w0] =>
    pose proof (csv_loop path
      (λ i x, pretty (i + 1)%Z +:+ ", y, " +:+ str_float x) wts warmups
      [csv_header] w0 Hw) as H1
  end.
  cbv zeta in H1. unfold csv_row in H1.
  destruct H1 as (Ho1 & Hs1 & Hh1 & He1 & Hf1); [apply lookup_insert_eq|].
  revert Hrun Ho1 Hs1 Hh1 He1 Hf1.
  match goal with |- context [for_in (range warmups) tt ?body ?w0] =>
    destruct (for_in (range warmups) tt body w0) as [o1 w2] end.
  simpl. intros Hrun -> Hs1 Hh1 He1 Hf1.
  rewrite bind_run in Hrun.
  pose proof (csv_loop path
      (λ i x, pretty (i + 1)%Z +:+ ", n, " +:+ str_float x) mts iter
      (csv_header :: csv_lines str_float "y" wts) w2 Hm) as H2.
  cbv zeta in H2. unfold csv_row in H2.
  destruct H2 as (Ho2 & Hs2 & Hh2 & He2 & Hf2).
  { rewrite Hf1. apply lookup_insert_eq. }
  revert Hrun Ho2 Hs2 Hh2 He2 Hf2.
  match goal with |- context [for_in (range iter) tt ?body w2] =>
    destruct (for_in (range iter) tt body w2) as [o2 w3] end.
  simpl. intros Hrun -> Hs2 Hh2 He2 Hf2. injection Hrun as <- <-.
  repeat split; try congruence.
  rewrite Hf2, Hf1. simpl. by rewrite !insert_insert_eq.
Qed.

(** The data row of the printed table (lines 83-90). *)
Definition table_row (st : stats T) : console T :=
  TableRow display_name iter warmups
           (time_min st) (time_max st) (avg st) (var st) (stdev st).

(** The timings [ts] are those of the timed executions that follow one
    another from world [w]: the first is measured in the environment of
    [w], each next one in the environment the one before has left. *)
Definition timed (w : world) (ts : list T) : Prop :=
  ∀ k t, ts !! k = Some t → t = elapsed_at (Nat.iter k tick (env w)).

(** The ways in which an invocation started in world [w] can end: with
    outcome [o], in world [w']. *)
Inductive ending (w : world) (o : outcome unit) (w' : world) : Prop :=
| WarmupRaised (e : exn) (wts : list T) :
    length wts < Z.to_nat warmups →
    can_raise e →
    o = Raises e →
    history w' = history w ++ slots true wts
                 ++ [Slot true (Z.of_nat (length wts)) (Raises e)] →
    stdout w' = stdout w ++ [Banner display_name] →
    files w' = files w →
    call_at (Nat.iter (length wts) tick (env w)) = Raises e →
    ending w o w'
| MeasuredRaised (e : exn) (wts mts : list T) :
    length wts = Z.to_nat warmups →
    length mts < Z.to_nat iter →
    can_raise e →
    o = Raises e →
    history w' = history w ++ slots true wts ++ slots false mts
                 ++ [Slot false (Z.of_nat (length mts)) (Raises e)] →
    stdout w' = stdout w ++ [Banner display_name] →
    files w' = files w →
    call_at (Nat.iter (length wts + length mts) tick (env w)) = Raises e →
    ending w o w'
| StatisticsRaised (e : exn) (wts mts : list T) :
    length wts = Z.to_nat warmups →
    length mts = Z.to_nat iter →
    statistics iter mts = Raises e →
    o = Raises e →
    history w' = history w ++ slots true wts ++ slots false mts →
    env w' = Nat.iter (length wts + length mts) tick (env w) →
    stdout w' = stdout w ++ [Banner display_name] →
    files w' = files w →
    timed w (wts ++ mts) →
    ending w o w'
| ReportedOnly (st : stats T) (wts mts : list T) :
    length wts = Z.to_nat warmups →
    length mts = Z.to_nat iter →
    statistics iter mts = Returns st →
    truthy csv_file = false →
    o = Returns tt →
    history w' = history w ++ slots true wts ++ slots false mts →
    env w' = Nat.iter (length wts + length mts) tick (env w) →
    stdout w' = stdout w ++ [Banner display_name; TableHeader; TableRule;
                             table_row st; EndBanner] →
    files w' = files w →
    timed w (wts ++ mts) →
    ending w o w'
| OpenFailed (st : stats T) (wts mts : list T) (path : string) :
    length wts = Z.to_nat warmups →
    length mts = Z.to_nat iter →
    statistics iter mts = Returns st →
    csv_file = Some path →
    path ≠ "" →
    can_open path = false →
    o = Raises (OSError path) →
    history w' = history w ++ slots true wts ++ slots false mts →
    env w' = Nat.iter (length wts + length mts) tick (env w) →
    stdout w' = stdout w ++ [Banner display_name; TableHeader; TableRule;
                             table_row st] →
    files w' = files w →
    timed w (wts ++ mts) →
    ending w o w'
| ReportedAndWritten (st : stats T) (wts mts : list T) (path : string) :
    length wts = Z.to_nat warmups →
    length mts = Z.to_nat iter →
    statistics iter mts = Returns st →
    csv_file = Some path →
    path ≠ "" →
    can_open path = true →
    o = Returns tt →
    history w' = history w ++ slots true wts ++ slots false mts →
    env w' = Nat.iter (length wts + length mts) tick (env w) →
    stdout w' = stdout w ++ [Banner display_name; TableHeader; TableRule;
                             table_row st; EndBanner] →
    files w' = <[path := csv_header :: csv_lines str_float "y" wts
                                    ++ csv_lines str_float "n" mts]> (files w) →
    timed w (wts ++ mts) →
    ending w o w'.

Lemma truthy_path (path : string) : truthy (Some path) = true → path ≠ "".
Proof.
  simpl. intros Hp. apply negb_true_iff in Hp. by apply String.eqb_neq.
Qed.

(** Every invocation ends in one of these ways. *)
Theorem wrapper_benchmark_ending (w : world) :
  let r := wrapper_benchmark perf_counter str_float can_open
             warmups iter verbose csv_file func args w in
  ending w r.1 r.2.
Proof.
  cbv zeta.
  destruct (wrapper_benchmark _ _ _ _ _ _ _ _ _ w) as [o w'] eqn:Hrun. simpl.
  unfold wrapper_benchmark in Hrun. cbv zeta in Hrun.
  change (fn_name func +:+ "(" +:+ String.concat ", " args +:+ ")")
    with display_name in Hrun.
  rewrite bind_run in Hrun.
  destruct (set_verbosity_frame w) as (Hv & Hvs & Hvf & Hvh & Hve).
  destruct (set_verbosity verbose w) as [ov w0].
  simpl in Hv, Hvs, Hvf, Hvh, Hve. subst ov.
  rewrite bind_run, print_run in Hrun.
  set (w1 := World _ _ _ _ _ _ _) in Hrun.
  assert (stdout w1 = stdout w ++ [Banner display_name]) as Hs1
    by (subst w1; simpl; by rewrite Hvs).
  assert (files w1 = files w) as Hf1 by done.
  assert (history w1 = history w) as Hh1 by done.
  assert (env w1 = env w) as He1 by done.
  clearbody w1.
  (* the warmup phase *)
  rewrite bind_run in Hrun.
  pose proof (phase_behaviour display_name true (range warmups) [] w1) as Hp.
  cbv zeta in Hp. unfold phase in Hp. revert Hrun Hp.
  match goal with |- context [for_in (range warmups) [] ?body w1] =>
    destruct (for_in (range warmups) [] body w1) as [[wts|e] w2] end;
    simpl; intros Hrun (Hs2 & Hf2 & Hp).
  2: {
    destruct Hp as (ts & i & Hlen & Hi & Hh2 & Hr & Hat).
    rewrite range_length in Hlen.
    rewrite range_lookup in Hi by done. injection Hi as <-.
    rewrite zip_range in Hh2 by lia.
    injection Hrun as <- <-.
    apply (WarmupRaised _ _ _ e ts); try done; try congruence.
    by rewrite Hh2, Hh1. }
  destruct Hp as (ts & -> & Hlenw & Hh2 & He2 & Htw). simpl in Hrun.
  rewrite range_length in Hlenw, He2. rewrite zip_range in Hh2 by lia.
  (* the measured phase *)
  rewrite bind_run in Hrun.
  pose proof (phase_behaviour display_name false (range iter) [] w2) as Hp.
  cbv zeta in Hp. unfold phase in Hp. revert Hrun Hp.
  match goal with |- context [for_in (range iter) [] ?body w2] =>
    destruct (for_in (range iter) [] body w2) as [[mts|e] w3] end;
    simpl; intros Hrun (Hs3 & Hf3 & Hp).
  2: {
    destruct Hp as (ms & i & Hlen & Hi & Hh3 & Hr & Hat).
    rewrite range_length in Hlen.
    rewrite range_lookup in Hi by done. injection Hi as <-.
    rewrite zip_range in Hh3 by lia.
    injection Hrun as <- <-.
    apply (MeasuredRaised _ _ _ e ts ms); try done; try congruence.
    - rewrite Hh3, Hh2, Hh1, <- !app_assoc. done.
    - rewrite Nat.add_comm, Nat.iter_add, Hlenw, <- He1, <- He2. exact Hat. }
  destruct Hp as (ms & -> & Hlenm & Hh3 & He3 & Htm). simpl in Hrun.
  rewrite range_length in Hlenm, He3. rewrite zip_range in Hh3 by lia.
  assert (timed w (ts ++ ms)) as Ht.
  { intros k t Hk. apply lookup_app_Some in Hk as [Hk|[Hge Hk]].
    - rewrite <- He1. by apply Htw.
    - rewrite (Htm _ _ Hk), He2, He1, <- Hlenw, <- Nat.iter_add.
      do 2 f_equal. lia. }
  assert (history w3 = history w ++ slots true ts ++ slots false ms) as Hh.
  { rewrite Hh3, Hh2, Hh1, <- !app_assoc. done. }
  assert (stdout w3 = stdout w ++ [Banner display_name]) as Hs by congruence.
  assert (files w3 = files w) as Hf by congruence.
  assert (env w3 = Nat.iter (length ts + length ms) tick (env w)) as He.
  { rewrite He3, He2, He1, Hlenw, Hlenm, Nat.add_comm. symmetry. apply Nat.iter_add. }
  clear Hh3 Hh2 Hh1 Hs3 Hs2 Hs1 Hf3 Hf2 Hf1 Hvs Hvf Hvh He3 He2 He1 Hve Htw Htm.
  (* the statistics *)
  rewrite bind_run in Hrun. unfold lift at 1 in Hrun.
  destruct (statistics iter ms) as [st|e] eqn:Hst.
  2: { injection Hrun as <- <-. by apply (StatisticsRaised _ _ _ e ts ms). }
  (* the table *)
  fold (table_row st) in Hrun.
  do 3 (rewrite bind_run, print_run in Hrun; cbv beta iota in Hrun).
  destruct (truthy csv_file) eqn:Htr.
  - destruct csv_file as [path|] eqn:Hcsv; [|done]. simpl default in Hrun.
    rewrite bind_run in Hrun.
    match type of Hrun with context [write_csv _ _ _ _ path ts ms ?w0] =>
      pose proof (write_csv_behaviour path ts ms w0 Hlenw Hlenm) as Hw;
      cbv zeta in Hw; revert Hrun Hw;
      destruct (write_csv str_float can_open warmups iter path ts ms w0) as [oc w4]
    end.
    simpl. intros Hrun (Hs4 & Hh4 & He4 & Hw).
    destruct (can_open path) eqn:Hopen; destruct Hw as (-> & Hf4).
    + injection Hrun as <- <-.
      apply (ReportedAndWritten _ _ _ st ts ms path); simpl;
        try done; try (by apply truthy_path); try congruence.
      rewrite Hs4, Hs, <- !app_assoc. done.
    + injection Hrun as <- <-.
      apply (OpenFailed _ _ _ st ts ms path); simpl;
        try done; try (by apply truthy_path); try congruence.
      rewrite Hs4, Hs, <- !app_assoc. done.
  - rewrite bind_run in Hrun. simpl in Hrun. injection Hrun as <- <-.
    apply (ReportedOnly _ _ _ st ts ms); simpl; try done.
    rewrite Hs, <- !app_assoc. done.
Qed.

End Invocation.

End BenchmarkFacts.

(* ===================================================================== *)
(** ** Construction of a wrapper                                         *)
(* ===================================================================== *)

Module Construction.
Import Py PyFacts Benchmark Reference Scenario.

Section Decorating.
Context {E T : Type} `{Arith T}.
Variable perf_counter : E → T * E.
Variable str_float : T → string.
Variable can_open : string → bool.

#[local] Abbreviation world := (world E T).

(** The message of the error raised for [None.endswith]. *)
Definition no_endswith : exn :=
  AttributeError "'NoneType' object has no attribute 'endswith'".

(** The decorator accepts exactly the configurations with a non-negative
    warmup count, a positive iteration count and a name ending in .csv. *)
Lemma benchmark_decorator_accepts (warmups iter : Z) (verbose : bool)
    (csv_file : option string) (func : callable E) (w : world)
    (wrapped : list string → M world unit) (w1 : world) :
  benchmark_decorator perf_counter str_float can_open
    warmups iter verbose csv_file func w = (Returns wrapped, w1) →
  (0 ≤ warmups)%Z ∧ (0 < iter)%Z ∧
  (∃ path, csv_file = Some path ∧ endswith path ".csv" = true) ∧
  w1 = w ∧
  wrapped = wrapper_benchmark perf_counter str_float can_open
              warmups iter verbose csv_file func.
Proof.
  unfold benchmark_decorator.
  destruct (Z.ltb_spec warmups 0); [done|].
  destruct (Z.leb_spec iter 0); [done|].
  rewrite bind_run. unfold lift.
  destruct csv_file as [path|]; simpl; [|done].
  destruct (endswith path ".csv") eqn:Hsuffix; simpl; [|done].
  intros [= <- <-]. repeat split; try done; try lia. by exists path.
Qed.

(** ... and it accepts every such configuration, without running anything. *)
Lemma benchmark_decorator_valid (warmups iter : Z) (verbose : bool)
    (path : string) (func : callable E) (w : world) :
  (0 ≤ warmups)%Z → (0 < iter)%Z → endswith path ".csv" = true →
  benchmark_decorator perf_counter str_float can_open
    warmups iter verbose (Some path) func w =
  (Returns (wrapper_benchmark perf_counter str_float can_open
              warmups iter verbose (Some path) func), w).
Proof.
  intros Hw Hi Hsuffix. unfold benchmark_decorator.
  destruct (Z.ltb_spec warmups 0); [lia|].
  destruct (Z.leb_spec iter 0); [lia|].
  rewrite bind_run. unfold lift, attr_endswith. by rewrite Hsuffix.
Qed.

Lemma benchmark_run (kw : kwargs) (w : world) :
  benchmark perf_counter str_float can_open kw w =
  (Returns (benchmark_decorator perf_counter str_float can_open
              (default 0%Z (kw_warmups kw)) (default 1%Z (kw_iter kw))
              (default false (kw_verbose kw)) (kw_csv_file kw)), w).
Proof. reflexivity. Qed.

(** C8. Applying the decorator with a negative warmup count, a non-positive
    iteration count, or a file name that does not end in [.csv] raises a
    [ValueError] on the spot: no wrapper is returned and the world is the
    one before, so the wrapped callable has not run. *)
Theorem invalid_configuration_raises (warmups iter : Z) (verbose : bool)
    (csv_file : option string) (func : callable E) (w : world) :
  invalid warmups iter csv_file →
  ∃ msg, benchmark_decorator perf_counter str_float can_open
           warmups iter verbose csv_file func w = (Raises (ValueError msg), w).
Proof.
  intros Hinv. unfold benchmark_decorator.
  destruct (Z.ltb_spec warmups 0); [by eexists|].
  destruct (Z.leb_spec iter 0); [by eexists|].
  destruct Hinv as [?|[?|(path & -> & Hsuffix)]]; try lia.
  rewrite bind_run. unfold lift. simpl. rewrite Hsuffix. by eexists.
Qed.

(** C10. Calling [benchmark] returns a decorator and does nothing else,
    whatever the arguments; it is the application of that decorator which
    raises, for every configuration that is invalid or has no file name. *)
Theorem benchmark_call_never_raises (kw : kwargs) (w : world) :
  ∃ decorate,
    benchmark perf_counter str_float can_open kw w = (Returns decorate, w) ∧
    ∀ (func : callable E) (w' : world),
      invalid (default 0%Z (kw_warmups kw)) (default 1%Z (kw_iter kw)) (kw_csv_file kw)
      ∨ kw_csv_file kw = None →
      ∃ e, decorate func w' = (Raises e, w').
Proof.
  eexists. split; [reflexivity|].
  intros func w' Hcase. unfold benchmark_decorator.
  destruct (Z.ltb_spec (default 0%Z (kw_warmups kw)) 0); [by eexists|].
  destruct (Z.leb_spec (default 1%Z (kw_iter kw)) 0); [by eexists|].
  destruct Hcase as [[?|[?|(path & Hpath & Hsuffix)]]|Hnone]; try lia.
  - rewrite Hpath, bind_run. unfold lift. simpl. rewrite Hsuffix. by eexists.
  - rewrite Hnone. by eexists.
Qed.

(** What line 27 does with the file name omitted: the decoration fails at
    once and leaves the world untouched, and whenever the two counts are
    valid the error is the [AttributeError] of [None.endswith], not the
    [ValueError] that the checks of lines 23-28 raise.  The docstring
    (line 18) and the guard of line 94 take an omitted name to mean that no
    CSV file is wanted. *)
Lemma omitted_filename_fails_at_construction (warmups iter : option Z)
    (verbose : option bool) (func : callable E) (w : world) :
  ∃ e, decorated perf_counter str_float can_open
         (Kwargs warmups iter verbose None) func w = (Raises e, w) ∧
       ((0 ≤ default 0 warmups)%Z → (0 < default 1 iter)%Z → e = no_endswith).
Proof.
  unfold decorated. rewrite bind_run. simpl.
  unfold benchmark_decorator.
  destruct (Z.ltb_spec (default 0%Z warmups) 0);
    [eexists; split; [done|lia]|].
  destruct (Z.leb_spec (default 1%Z iter) 0);
    [eexists; split; [done|lia]|].
  by eexists.
Qed.


End Decorating.

End Construction.

(* ===================================================================== *)
(** ** One invocation of a wrapper                                       *)
(* ===================================================================== *)

Module Reports.
Import Py PyFacts Benchmark Reference BenchmarkFacts.

Section Statistics.
Context {T : Type} `{Arith T}.

(** What the statistics are when they are produced, line by line. *)
Lemma statistics_inv (iter : Z) (ts : list T) (st : stats T) :
  statistics iter ts = Returns st →
  ∃ d squares,
    ts ≠ [] ∧ iter ≠ 0%Z ∧
    py_min ts = Returns (time_min st) ∧
    py_max ts = Returns (time_max st) ∧
    num_of_int iter = Returns d ∧
    avg st = num_div (py_sum ts) d ∧
    squared_deviations (avg st) ts = Returns squares ∧
    var st = num_div (py_sum squares) d ∧
    num_lt (var st) num_zero = false ∧
    stdev st = num_sqrt (var st).
Proof.
  unfold statistics, truediv, math_sqrt, squared_deviations.
  destruct ts as [|x ts]; [done|].
  unfold py_min, py_max.
  destruct (num_of_int iter) as [d|e];
    cbv beta iota delta [mbind outcome_bind]; [|done].
  destruct (Z.eqb_spec iter 0) as [|Hiter]; [done|].
  destruct (mapM _ (x :: ts)) as [squares|e] eqn:Hsq; [|done].
  destruct (num_lt _ num_zero) eqn:Hlt; [done|].
  intros [= <-]. exists d, squares. by repeat split.
Qed.

(** Statistics exist only for a non-empty sample and a non-zero count. *)
Lemma statistics_defined (iter : Z) (ts : list T) (st : stats T) :
  statistics iter ts = Returns st → ts ≠ [] ∧ iter ≠ 0%Z.
Proof. by intros (d & squares & Hne & Hiter & _)%statistics_inv. Qed.

(** Lines 75-78 compute the mean, the population variance and its root. *)
Lemma statistics_population (iter : Z) (ts : list T) (st : stats T) :
  statistics iter ts = Returns st →
  iter = Z.of_nat (length ts) →
  mean ts = Returns (avg st) ∧ population_variance ts = Returns (var st) ∧
  stdev st = num_sqrt (var st).
Proof.
  intros (d & squares & _ & _ & _ & _ & Hd & Ha & Hsq & Hv & _ & Hs)%statistics_inv Hiter.
  assert (mean ts = Returns (avg st)) as Hmean.
  { unfold mean, count. rewrite <- Hiter, Hd. simpl. by rewrite Ha. }
  repeat split; try done.
  unfold population_variance. rewrite Hmean. cbn [mbind outcome_bind].
  rewrite Hsq. cbn [mbind outcome_bind].
  unfold count. rewrite <- Hiter, Hd. simpl. by rewrite Hv.
Qed.

(** Line 78: the standard deviation is the root of the computed variance. *)
Lemma statistics_stdev (iter : Z) (ts : list T) (st : stats T) :
  statistics iter ts = Returns st → stdev st = num_sqrt (var st).
Proof. by intros (d & squares & _ & _ & _ & _ & _ & _ & _ & _ & _ & Hs)%statistics_inv. Qed.

End Statistics.

Section Invocation.
Context {E T : Type} `{Arith T}.
Variable perf_counter : E → T * E.
Variable str_float : T → string.
Variable can_open : string → bool.
Variables (warmups iter : Z) (verbose : bool) (csv_file : option string).
Variable func : callable E.
Variable args : list string.

#[local] Abbreviation world := (world E T).
#[local] Abbreviation invoke :=
  (wrapper_benchmark perf_counter str_float can_open
     warmups iter verbose csv_file func args).

(** The slots an invocation started in [w] has added to the history. *)
Definition added (w w' : world) : list (slot T) :=
  drop (length (history w)) (history w').

Lemma added_app (w w' : world) (new : list (slot T)) :
  history w' = history w ++ new → added w w' = new.
Proof. unfold added. intros ->. apply drop_app_length. Qed.

Lemma slots_returned (b : bool) (ts : list T) (s : slot T) :
  s ∈ slots b ts → ∃ t, result s = Returns t.
Proof.
  unfold slots. intros (k & t & -> & _)%elem_of_lookup_imap. by exists t.
Qed.

Lemma slots_length (b : bool) (ts : list T) : length (slots b ts) = length ts.
Proof. apply length_imap. Qed.

(** C4. With a valid configuration and a callable that returns in each of
    the slots, one invocation executes the callable exactly
    [warmups + iter] times, one execution after the other: the warmup slots
    0, 1, ... in order, then the measured slots 0, 1, ... in order.  The
    environment it leaves is the one reached by that many timed executions
    (a clock reading, the call, a clock reading) in a row, and the timing
    of each slot is the one measured by the execution of its rank. *)
Theorem slots_run_in_phase_order (w : world) :
  (0 ≤ warmups)%Z → (0 < iter)%Z →
  (∀ k, k < Z.to_nat warmups + Z.to_nat iter →
        call_at perf_counter func args
          (Nat.iter k (tick perf_counter func args) (env w)) = Returns tt) →
  ∃ wts mts,
    added w (invoke w).2 = slots true wts ++ slots false mts ∧
    Z.of_nat (length wts) = warmups ∧ Z.of_nat (length mts) = iter ∧
    Z.of_nat (length (added w (invoke w).2)) = (warmups + iter)%Z ∧
    env (invoke w).2
    = Nat.iter (Z.to_nat warmups + Z.to_nat iter) (tick perf_counter func args) (env w) ∧
    timed perf_counter func args w (wts ++ mts).
Proof.
  intros Hw Hi Hret.
  destruct (wrapper_benchmark_ending perf_counter str_float can_open
              warmups iter verbose csv_file func args w)
    as [e wts Hlw _ _ _ _ _ Hat|e wts mts Hlw Hlm _ _ _ _ _ Hat
       | e wts mts Hlw Hlm _ _ Hh He _ _ Ht
       | st wts mts Hlw Hlm _ _ _ Hh He _ _ Ht
       | st wts mts p Hlw Hlm _ _ _ _ _ Hh He _ _ Ht
       | st wts mts p Hlw Hlm _ _ _ _ _ Hh He _ _ Ht].
  1, 2: rewrite Hret in Hat by lia; discriminate.
  all: exists wts, mts; rewrite (added_app _ _ _ Hh), He, Hlw, Hlm;
    rewrite length_app, !slots_length; repeat split; try done; lia.
Qed.

(** C3 as amended. When a slot of the invocation raises [e], the invocation
    raises [e], that slot is the last one run, no table has been printed and
    no file has been touched; the opening banner is already on the console. *)
Theorem raising_callable_aborts_invocation (w : world) (b : bool) (i : Z) (e : exn) :
  Slot b i (Raises e) ∈ added w (invoke w).2 →
  (invoke w).1 = Raises e ∧
  last (history (invoke w).2) = Some (Slot b i (Raises e)) ∧
  stdout (invoke w).2 = stdout w ++ [Banner (display_name func args)] ∧
  files (invoke w).2 = files w.
Proof.
  intros Hin.
  assert (∀ wts mts : list T,
            Slot b i (Raises e) ∉ slots true wts ++ slots false mts) as Hno.
  { intros wts mts [Hs|Hs]%elem_of_app;
      apply slots_returned in Hs as [t Ht]; done. }
  destruct (wrapper_benchmark_ending perf_counter str_float can_open
              warmups iter verbose csv_file func args w)
    as [e' wts _ _ Ho Hh Hs Hf|e' wts mts _ _ _ Ho Hh Hs Hf
       | e' wts mts _ _ _ _ Hh
       | st wts mts _ _ _ _ _ Hh
       | st wts mts p _ _ _ _ _ _ _ Hh
       | st wts mts p _ _ _ _ _ _ _ Hh];
    try (rewrite (added_app _ _ _ Hh) in Hin; by destruct (Hno wts mts)).
  - rewrite (added_app _ _ _ Hh) in Hin.
    apply elem_of_app in Hin as [Hin|Hin].
    { apply slots_returned in Hin as [t Ht]. done. }
    apply list_elem_of_singleton in Hin. injection Hin as -> -> ->.
    rewrite Ho, Hh, Hs, Hf, app_assoc, last_snoc. done.
  - rewrite (added_app _ _ _ Hh) in Hin.
    rewrite app_assoc in Hin.
    apply elem_of_app in Hin as [Hin|Hin]; [by destruct (Hno wts mts)|].
    apply list_elem_of_singleton in Hin. injection Hin as -> -> ->.
    rewrite Ho, Hh, Hs, Hf, !app_assoc, last_snoc. done.
Qed.

(** C5. Whenever an invocation prints the row of its table, the variance
    in that row is the population variance of the timings of the measured
    slots alone (the sum of the squared deviations from their mean, divided
    by their number), and the standard deviation is the square root of
    that variance.  The timings of the warmup slots do not enter. *)
Theorem reported_variance_is_population_variance (w : world)
    (lines : list (console T)) (name : string) (it wu : Z)
    (lowest highest average variance deviation : T) :
  stdout (invoke w).2 = stdout w ++ lines →
  TableRow name it wu lowest highest average variance deviation ∈ lines →
  ∃ wts mts,
    added w (invoke w).2 = slots true wts ++ slots false mts ∧
    length wts = Z.to_nat warmups ∧ length mts = Z.to_nat iter ∧
    mean mts = Returns average ∧
    population_variance mts = Returns variance ∧
    deviation = num_sqrt variance.
Proof.
  intros Hlines Hrow.
  assert (∀ mts st, length mts = Z.to_nat iter →
            statistics iter mts = Returns st →
            mean mts = Returns (avg st) ∧
            population_variance mts = Returns (var st) ∧
            stdev st = num_sqrt (var st)) as Hpop.
  { intros mts st Hlen Hst.
    destruct (statistics_defined _ _ _ Hst) as [Hne Hiter].
    apply (statistics_population iter mts st Hst).
    destruct mts; [done|]. simpl in Hlen |- *. lia. }
  destruct (wrapper_benchmark_ending perf_counter str_float can_open
              warmups iter verbose csv_file func args w)
    as [e wts _ _ _ _ Hs|e wts mts _ _ _ _ _ Hs
       | e wts mts _ _ _ _ _ _ Hs
       | st wts mts Hlw Hlm Hst _ _ Hh _ Hs
       | st wts mts p Hlw Hlm Hst _ _ _ _ Hh _ Hs
       | st wts mts p Hlw Hlm Hst _ _ _ _ Hh _ Hs];
    rewrite Hlines in Hs; apply app_inv_head in Hs; subst lines.
  1-3: by apply list_elem_of_singleton in Hrow.
  all: repeat (apply elem_of_cons in Hrow as [Hrow|Hrow]; [try done|]);
    try (by apply elem_of_nil in Hrow);
    injection Hrow as -> -> -> -> -> -> -> ->;
    exists wts, mts; rewrite (added_app _ _ _ Hh);
    destruct (Hpop mts st Hlm Hst) as (? & ? & ?); done.
Qed.

(** C7. When the invocation returns and a CSV file is configured, the file
    holds the header line, then one line per warmup slot flagged [y] and
    numbered from 1, then one line per measured slot flagged [n] and
    numbered from 1 again, with the timings of the slots in the order in
    which they ran: [warmups + iter] data lines in all. *)
Theorem csv_file_lists_every_run (w w' : world) :
  truthy csv_file = true →
  invoke w = (Returns tt, w') →
  ∃ path wts mts,
    csv_file = Some path ∧
    added w w' = slots true wts ++ slots false mts ∧
    files w' !! path = Some (csv_header :: csv_lines str_float "y" wts
                                        ++ csv_lines str_float "n" mts) ∧
    length (csv_lines str_float "y" wts) = Z.to_nat warmups ∧
    length (csv_lines str_float "n" mts) = Z.to_nat iter.
Proof.
  intros Hcsv Hrun.
  pose proof (wrapper_benchmark_ending perf_counter str_float can_open
                warmups iter verbose csv_file func args w) as Hend.
  cbv zeta in Hend. rewrite Hrun in Hend. simpl in Hend.
  destruct Hend
    as [| | | st wts mts _ _ _ Hfalsy
       | | st wts mts p Hlw Hlm _ Hp _ _ _ Hh _ _ Hf]; try done.
  - by rewrite Hcsv in Hfalsy.
  - exists p, wts, mts. rewrite (added_app _ _ _ Hh), Hf, lookup_insert_eq.
    unfold csv_lines. rewrite !length_imap. done.
Qed.

End Invocation.

End Reports.

(* ===================================================================== *)
(** ** The statistics in binary64                                        *)
(* ===================================================================== *)

Module Binary64.
Import Py PyFacts Benchmark Reference.
Import SpecFloat FloatOps FloatAxioms.

(** A value that is not below zero: NaN, or a zero, finite number or
    infinity with a clear sign bit. *)
Definition unsigned (x : spec_float) : Prop :=
  match x with
  | S754_nan => True
  | S754_zero s | S754_infinity s | S754_finite s _ _ => s = false
  end.

Lemma round_aux_unsigned (m e : Z) (l : location) :
  unsigned (binary_round_aux prec emax false m e l).
Proof.
  unfold binary_round_aux.
  destruct (shr_fexp prec emax m e l) as [mrs' e'].
  destruct (shr_fexp prec emax _ e' loc_Exact) as [mrs'' e''].
  destruct (shr_m mrs''); simpl; try done.
  by destruct (e'' <=? emax - prec)%Z.
Qed.

Lemma round_unsigned (m : positive) (e : Z) :
  unsigned (binary_round prec emax false m e).
Proof.
  unfold binary_round. destruct (shl_align m e _) as [mz ez].
  apply round_aux_unsigned.
Qed.

Lemma normalize_unsigned (m e : Z) :
  (0 ≤ m)%Z → unsigned (binary_normalize prec emax m e false).
Proof.
  intros Hm. destruct m; simpl; [done|apply round_unsigned|lia].
Qed.

Lemma add_unsigned (x y : spec_float) :
  unsigned x → unsigned y → unsigned (SFadd prec emax x y).
Proof.
  destruct x as [sx|sx| |sx mx ex], y as [sy|sy| |sy my ey]; simpl;
    intros Hx Hy; subst; try done.
  apply normalize_unsigned. simpl. lia.
Qed.

Lemma div_unsigned (x y : spec_float) :
  unsigned x → unsigned y → unsigned (SFdiv prec emax x y).
Proof.
  destruct x as [sx|sx| |sx mx ex], y as [sy|sy| |sy my ey]; simpl;
    intros Hx Hy; subst; try done.
  destruct (SFdiv_core_binary prec emax _ _ _ _) as [[mz ez] lz].
  apply round_aux_unsigned.
Qed.

Lemma mul_unsigned (x : spec_float) : unsigned (SFmul prec emax x x).
Proof.
  destruct x as [s|s| |s m e]; simpl; try done; try by destruct s.
  replace (xorb s s) with false by (by destruct s).
  apply round_aux_unsigned.
Qed.

Lemma abs_unsigned (x : spec_float) : unsigned (SFabs x).
Proof. by destruct x. Qed.

Lemma ldexp_unsigned (x : spec_float) (e : Z) :
  unsigned x → unsigned (SFldexp prec emax x e).
Proof.
  destruct x as [s|s| |s m ex]; simpl; try done.
  intros ->. apply round_unsigned.
Qed.

Lemma not_below_zero (x : spec_float) :
  unsigned x → SFltb x (S754_zero false) = false.
Proof. destruct x as [s|s| |s m e]; simpl; intros Hx; subst; done. Qed.

(** The float of a spec that is not below zero is not below zero. *)
Lemma SF2Prim_unsigned (x : spec_float) :
  unsigned x → unsigned (Prim2SF (SF2Prim x)).
Proof.
  destruct x as [s|s| |s m e]; simpl; intros Hx; subst; try done.
  rewrite FloatLemmas.Z_ldexp_spec, of_uint63_spec.
  apply ldexp_unsigned, normalize_unsigned, Uint63.to_Z_bounded.
Qed.

(** The float of a non-negative int is not below zero. *)
Lemma float_of_Z_unsigned (z : Z) :
  (0 ≤ z)%Z → unsigned (Prim2SF (float_of_Z z)).
Proof.
  intros Hz. unfold float_of_Z. by apply SF2Prim_unsigned, normalize_unsigned.
Qed.

Lemma sum_unsigned (xs : list PrimFloat.float) :
  ∀ a, unsigned (Prim2SF a) → (∀ x, x ∈ xs → unsigned (Prim2SF x)) →
  unsigned (Prim2SF (fold_left PrimFloat.add xs a)).
Proof.
  induction xs as [|x xs IH]; intros a Ha Hxs; simpl; [done|].
  apply IH.
  - rewrite add_spec. apply add_unsigned; [done|]. apply Hxs. by left.
  - intros y Hy. apply Hxs. by right.
Qed.

(** *** The order of the floats that are numbers *)

Lemma SFcompare_antisym (x y : spec_float) (c : comparison) :
  SFcompare x y = Some c → SFcompare y x = Some (CompOpp c).
Proof.
  destruct x as [sx|sx| |sx mx ex], y as [sy|sy| |sy my ey]; simpl;
    try done; intros [= <-]; try (by destruct sx); try (by destruct sy);
    try (by destruct sx, sy).
  destruct sx, sy; simpl; try done.
  - rewrite (Z.compare_antisym ex ey). destruct (ex ?= ey)%Z; simpl; try done.
    by rewrite (Pos.compare_cont_antisym mx my Eq).
  - rewrite (Z.compare_antisym ex ey). destruct (ex ?= ey)%Z; simpl; try done.
    by rewrite (Pos.compare_cont_antisym mx my Eq).
Qed.

Lemma SFcompare_refl (x : spec_float) :
  x ≠ S754_nan → SFcompare x x = Some Eq.
Proof.
  destruct x as [s|s| |s m e]; simpl; try done; intros _; try (by destruct s).
  destruct s; rewrite Z.compare_refl, Pos.compare_cont_refl; done.
Qed.

Lemma SFcompare_defined (x y : spec_float) :
  x ≠ S754_nan → y ≠ S754_nan → ∃ c, SFcompare x y = Some c.
Proof.
  destruct x as [sx|sx| |sx mx ex], y as [sy|sy| |sy my ey]; simpl;
    try done; intros _ _; by eexists.
Qed.

(** A float that is a number, not NaN. *)
Definition is_number (x : PrimFloat.float) : Prop := Prim2SF x ≠ S754_nan.

Lemma leb_refl (x : PrimFloat.float) : is_number x → PrimFloat.leb x x = true.
Proof.
  intros Hx. rewrite leb_spec. unfold SFleb. by rewrite SFcompare_refl.
Qed.

Lemma leb_total (x y : PrimFloat.float) :
  is_number x → is_number y →
  PrimFloat.ltb y x = false → PrimFloat.leb x y = true.
Proof.
  intros Hx Hy. rewrite ltb_spec, leb_spec. unfold SFltb, SFleb.
  destruct (SFcompare_defined _ _ Hy Hx) as [c Hc].
  rewrite Hc, (SFcompare_antisym _ _ _ Hc). by destruct c.
Qed.

Lemma ltb_leb (x y : PrimFloat.float) :
  PrimFloat.ltb x y = true → PrimFloat.leb x y = true.
Proof.
  rewrite ltb_spec, leb_spec. unfold SFltb, SFleb.
  by destruct (SFcompare _ _) as [[]|].
Qed.

(** The running minimum and the running maximum of the same numbers stay
    in order. *)
Lemma extremes_ordered (rest : list PrimFloat.float) :
  ∀ lo hi,
  is_number lo → is_number hi → PrimFloat.leb lo hi = true →
  (∀ y, y ∈ rest → is_number y) →
  PrimFloat.leb
    (fold_left (λ m y, if PrimFloat.ltb y m then y else m) rest lo)
    (fold_left (λ m y, if PrimFloat.ltb m y then y else m) rest hi) = true.
Proof.
  induction rest as [|y rest IH]; intros lo hi Hlo Hhi Hle Hrest; [done|].
  assert (is_number y) as Hy by (apply Hrest; by left).
  simpl. apply IH.
  - by destruct (PrimFloat.ltb y lo).
  - by destruct (PrimFloat.ltb hi y).
  - destruct (PrimFloat.ltb y lo) eqn:H1, (PrimFloat.ltb hi y) eqn:H2.
    + by apply leb_refl.
    + by apply leb_total.
    + by apply leb_total.
    + done.
  - intros z Hz. apply Hrest. by right.
Qed.

(** *** The statistics on a platform *)

Section Platform.
Context `{Libm}.

(** What the C standard asks of [pow]: the square of a base that is not
    negative is not negative. *)
Definition nonnegative_squares : Prop :=
  ∀ a, unsigned (Prim2SF a) → unsigned (Prim2SF (pow_2 a)).

Lemma float_pow2_unsigned (x q : PrimFloat.float) :
  nonnegative_squares → float_pow2 x = Returns q → unsigned (Prim2SF q).
Proof.
  intros Hsq. unfold float_pow2.
  destruct (Prim2SF x) as [s|s| |s m e] eqn:Hx.
  - by intros [= <-].
  - intros [= <-]. rewrite abs_spec. apply abs_unsigned.
  - intros [= <-]. by rewrite Hx.
  - cbv zeta. destruct (PrimFloat.eqb _ _); [by intros [= <-]|].
    destruct (PrimFloat.is_infinity _); [done|]. intros [= <-].
    apply Hsq. rewrite abs_spec. apply abs_unsigned.
Qed.

Lemma float_pow2_raises (x : PrimFloat.float) (e : exn) :
  float_pow2 x = Raises e → ∃ msg, e = OverflowError msg.
Proof.
  unfold float_pow2. destruct (Prim2SF x) as [s|s| |s m ex]; try done.
  cbv zeta. destruct (PrimFloat.eqb _ _); [done|].
  destruct (PrimFloat.is_infinity _); [|done]. intros [= <-]. by eexists.
Qed.

Lemma float_of_int_returns (z : Z) (d : PrimFloat.float) :
  float_of_int z = Returns d → d = float_of_Z z.
Proof.
  unfold float_of_int. cbv zeta. destruct (PrimFloat.is_infinity _); [done|].
  by intros [= <-].
Qed.

Lemma float_of_int_raises (z : Z) (e : exn) :
  float_of_int z = Raises e → ∃ msg, e = OverflowError msg.
Proof.
  unfold float_of_int. cbv zeta. destruct (PrimFloat.is_infinity _); [|done].
  intros [= <-]. by eexists.
Qed.

Lemma squares_unsigned (m : PrimFloat.float) (ts : list PrimFloat.float) :
  nonnegative_squares →
  ∀ squares, squared_deviations m ts = Returns squares →
  ∀ q, q ∈ squares → unsigned (Prim2SF q).
Proof.
  intros Hsq. unfold squared_deviations.
  induction ts as [|x ts IH]; intros squares; simpl.
  - intros [= <-] q Hq. by apply elem_of_nil in Hq.
  - destruct (float_pow2 _) as [q0|e] eqn:Hq0; simpl; [|done].
    destruct (mapM _ ts) as [qs|e]; simpl; [|done].
    intros [= <-] q [->|Hq]%elem_of_cons.
    + by apply (float_pow2_unsigned _ _ Hsq Hq0).
    + by apply (IH qs).
Qed.

Lemma squares_raise (m : PrimFloat.float) (ts : list PrimFloat.float) (e : exn) :
  squared_deviations m ts = Raises e → ∃ msg, e = OverflowError msg.
Proof.
  unfold squared_deviations. induction ts as [|x ts IH]; simpl; [done|].
  destruct (float_pow2 _) as [q0|e0] eqn:Hq0; simpl.
  - destruct (mapM _ ts) as [qs|e1]; simpl; [done|].
    intros [= <-]. by apply IH.
  - intros [= <-]. by apply (float_pow2_raises _ _ Hq0).
Qed.

(** The quotient of line 77 is not below zero. *)
Lemma variance_not_below_zero (iter : Z) (squares : list PrimFloat.float) :
  (0 < iter)%Z →
  (∀ q, q ∈ squares → unsigned (Prim2SF q)) →
  PrimFloat.ltb (PrimFloat.div (py_sum squares) (float_of_Z iter)) PrimFloat.zero = false.
Proof.
  intros Hiter Hsq. rewrite ltb_spec.
  change (Prim2SF PrimFloat.zero) with (S754_zero false).
  apply not_below_zero. rewrite div_spec.
  apply div_unsigned; [|apply float_of_Z_unsigned; lia].
  unfold py_sum. cbn [num_add num_zero float_arith].
  by apply sum_unsigned.
Qed.

(** Lines 73-78 on a non-empty sample: the statistics, unless a conversion
    or a square overflows. *)
Lemma statistics_run (iter : Z) (ts : list PrimFloat.float) :
  nonnegative_squares → (0 < iter)%Z → ts ≠ [] →
  match float_of_int iter with
  | Raises e => statistics iter ts = Raises e
  | Returns d =>
      let m := PrimFloat.div (py_sum ts) d in
      match squared_deviations m ts with
      | Raises e => statistics iter ts = Raises e
      | Returns squares =>
          let v := PrimFloat.div (py_sum squares) d in
          ∃ lo hi, py_min ts = Returns lo ∧ py_max ts = Returns hi ∧
                   PrimFloat.ltb v PrimFloat.zero = false ∧
                   statistics iter ts = Returns (Stats lo hi m v (PrimFloat.sqrt v))
      end
  end.
Proof.
  intros Hsq Hiter Hne. destruct ts as [|x ts]; [done|].
  unfold statistics, truediv, math_sqrt, squared_deviations.
  unfold py_min, py_max. cbn [num_of_int num_div num_lt num_sqrt num_zero float_arith].
  destruct (float_of_int iter) as [d|e] eqn:Hd;
    cbv beta iota zeta delta [mbind outcome_bind]; [|done].
  destruct (Z.eqb_spec iter 0) as [|_]; [lia|].
  destruct (mapM _ (x :: ts)) as [squares|e] eqn:Hsqs; [|done].
  apply float_of_int_returns in Hd as ->.
  rewrite (variance_not_below_zero iter squares Hiter).
  - eexists _, _. by repeat split.
  - by apply (squares_unsigned _ _ Hsq squares Hsqs).
Qed.

(** So only an [OverflowError] can keep the statistics from being
    produced. *)
Lemma statistics_outcome (iter : Z) (ts : list PrimFloat.float) :
  nonnegative_squares → (0 < iter)%Z → ts ≠ [] →
  (∃ st, statistics iter ts = Returns st ∧
         PrimFloat.ltb (var st) PrimFloat.zero = false ∧
         stdev st = PrimFloat.sqrt (var st)) ∨
  (∃ msg, statistics iter ts = Raises (OverflowError msg)).
Proof.
  intros Hsq Hiter Hne. pose proof (statistics_run iter ts Hsq Hiter Hne) as Hrun.
  destruct (float_of_int iter) as [d|e] eqn:Hd.
  - cbv zeta in Hrun.
    destruct (squared_deviations _ ts) as [squares|e] eqn:Hsqs.
    + destruct Hrun as (lo & hi & _ & _ & Hv & Hst). left. eexists. by rewrite Hst.
    + right. destruct (squares_raise _ _ _ Hsqs) as [msg ->]. by exists msg.
  - right. destruct (float_of_int_raises _ _ Hd) as [msg ->]. by exists msg.
Qed.

(** C6 as amended. In binary64, whenever the population variance of a
    non-empty sequence of timings can be computed (no squared deviation
    overflows), the program computes the statistics, with that variance;
    the variance is not below zero, the standard deviation is its square
    root, and for timings that are numbers the minimum is at most the
    maximum.  The mean, being rounded, is not bound to lie between them. *)
Theorem computed_statistics_relations (ts : list PrimFloat.float)
    (v : PrimFloat.float) :
  nonnegative_squares → ts ≠ [] →
  population_variance ts = Returns v →
  ∃ st, statistics (Z.of_nat (length ts)) ts = Returns st ∧
        var st = v ∧
        PrimFloat.ltb (var st) PrimFloat.zero = false ∧
        stdev st = PrimFloat.sqrt (var st) ∧
        ((∀ x, x ∈ ts → is_number x) →
         PrimFloat.leb (time_min st) (time_max st) = true).
Proof.
  intros Hsq Hne Hv.
  assert (0 < Z.of_nat (length ts))%Z as Hiter by (destruct ts; [done|simpl; lia]).
  pose proof (statistics_run _ ts Hsq Hiter Hne) as Hrun.
  revert Hv. unfold population_variance, mean, count.
  cbn [num_of_int num_div float_arith].
  destruct (float_of_int _) as [d|e]; cbv beta iota zeta delta [mbind outcome_bind mret outcome_ret];
    [|done].
  cbv zeta in Hrun.
  destruct (squared_deviations _ ts) as [squares|e]; [|done].
  intros [= <-]. destruct Hrun as (lo & hi & Hlo & Hhi & Hlt & Hst).
  eexists. split; [exact Hst|]. cbn [var stdev time_min time_max].
  repeat split; try done.
  intros Hnum. destruct ts as [|x rest]; [done|].
  injection Hlo as <-. injection Hhi as <-.
  assert (is_number x) as Hx by (apply Hnum; by left).
  apply extremes_ordered; try done; [by apply leb_refl|].
  intros y Hy. apply Hnum. by right.
Qed.

(** X12. In binary64 the computed variance is never below zero, so
    [math.sqrt] never meets a domain error: for a positive count and a
    non-empty sample the statistics are produced, with a variance that is
    not below zero and its square root, unless an [OverflowError] is raised
    (by a square at line 76, or by the conversion of the count). *)
Theorem variance_is_never_negative (iter : Z) (ts : list PrimFloat.float) :
  nonnegative_squares → (0 < iter)%Z → ts ≠ [] →
  (∃ st, statistics iter ts = Returns st ∧
         PrimFloat.ltb (var st) PrimFloat.zero = false ∧
         stdev st = PrimFloat.sqrt (var st)) ∨
  (∃ msg, statistics iter ts = Raises (OverflowError msg)).
Proof. exact (statistics_outcome iter ts). Qed.

End Platform.

End Binary64.

(* ===================================================================== *)
(** ** The scaling driver                                                *)
(* ===================================================================== *)

Module DriverFacts.
Import Py PyFacts Benchmark Reference BenchmarkFacts Driver.

Section Counting.
Context {E T : Type} `{Arith T}.
Variable perf_counter : E → T * E.
Variable str_float : T → string.
Variable can_open : string → bool.
Variable func : callable E.

(** The workload returns whenever it is called. *)
Hypothesis func_returns : ∀ a e, (fn_call func a e).1 = Returns tt.

#[local] Abbreviation world := (world (tally E) T).

Lemma call_func_counts (tl : tally E) :
  (call_func func tl).1 = Returns tt ∧
  invocations (call_func func tl).2 = S (invocations tl).
Proof.
  unfold call_func. pose proof (func_returns [] (inner tl)) as Hret.
  destruct (fn_call func [] (inner tl)) as [o e]. simpl in *. by subst o.
Qed.

(** A worker invokes the workload once per element of its loop. *)
Lemma worker_counts {A} (xs : list A) :
  ∀ tl, let r := for_in xs tt (λ _ _, call_func func) tl in
  r.1 = Returns tt ∧ invocations r.2 = invocations tl + length xs.
Proof.
  induction xs as [|x xs IH]; intros tl.
  - simpl. split; [done|lia].
  - rewrite for_in_cons.
    destruct (call_func_counts tl) as [Ho Hn].
    destruct (call_func func tl) as [o tl1]. simpl in Ho, Hn. subst o.
    destruct (IH tl1) as [Ho Hi]. cbv zeta. rewrite Ho, Hi, Hn. simpl.
    split; [done|lia].
Qed.

Lemma iterate_f_counts (n_iter : Z) (tl : tally E) :
  invocations (iterate_f func n_iter tl).2 = invocations tl + Z.to_nat n_iter.
Proof.
  unfold iterate_f. destruct (worker_counts (range n_iter) tl) as [_ Hn].
  cbv zeta in Hn. by rewrite Hn, range_length.
Qed.

(** Starting the threads of a harness runs every worker to its end. *)
Lemma started_threads_count {A} (n_iter : Z) (xs : list A) :
  ∀ tl, let r := for_in ((λ _, iterate_f func n_iter) <$> xs) tt
                   (λ t _, thread_run t) tl in
  r.1 = Returns tt ∧
  invocations r.2 = invocations tl + length xs * Z.to_nat n_iter.
Proof.
  induction xs as [|x xs IH]; intros tl.
  - simpl. split; [done|lia].
  - rewrite fmap_cons, for_in_cons. unfold thread_run at 1.
    pose proof (iterate_f_counts n_iter tl) as Hn.
    destruct (iterate_f func n_iter tl) as [o tl1]. simpl in Hn.
    destruct (IH tl1) as [Ho Hi]. cbv zeta. rewrite Ho, Hi, Hn. simpl.
    split; [done|lia].
Qed.

Lemma joined_threads {A B} (ts : list A) (s : B) :
  for_in ts tt (λ _ _, mret tt) s = (Returns tt, s).
Proof. induction ts as [|t ts IH]; [done|]. by rewrite for_in_cons. Qed.

(** One call of the harness invokes the workload
    [n_threads * n_iter] times. *)
Lemma harness_counts (n_threads n_iter : Z) (a : list string) (tl : tally E) :
  (fn_call (wrapper func n_threads n_iter) a tl).1 = Returns tt ∧
  invocations (fn_call (wrapper func n_threads n_iter) a tl).2 =
    invocations tl + Z.to_nat n_threads * Z.to_nat n_iter.
Proof.
  simpl. rewrite bind_run.
  destruct (started_threads_count n_iter (range n_threads) tl) as [Ho Hn].
  cbv zeta in Ho, Hn.
  destruct (for_in _ tt (λ t _, thread_run t) tl) as [o tl1].
  simpl in Ho, Hn. subst o. rewrite joined_threads. simpl.
  by rewrite Hn, range_length.
Qed.

Lemma clock_counts (tl : tally E) :
  invocations (clock perf_counter tl).2 = invocations tl.
Proof. unfold clock. by destruct (perf_counter (inner tl)). Qed.

(** Each timed slot of a trial is one call of the harness. *)
Lemma slot_counts (n_threads n_iter : Z) (k : nat) (tl : tally E) :
  invocations (Nat.iter k (tick (clock perf_counter)
                                (wrapper func n_threads n_iter) []) tl) =
  invocations tl + k * (Z.to_nat n_threads * Z.to_nat n_iter).
Proof.
  induction k as [|k IH]; [simpl; lia|].
  rewrite Nat.iter_succ. unfold tick at 1.
  rewrite clock_counts.
  destruct (harness_counts n_threads n_iter [] 
              (clock perf_counter (Nat.iter k
                 (tick (clock perf_counter) (wrapper func n_threads n_iter) []) tl)).2)
    as [_ Hn].
  rewrite Hn, clock_counts, IH. lia.
Qed.

(** A trial is the decoration of the harness followed by one invocation. *)
Lemma trial_run (n_threads n_iter : Z) (w : world) :
  (0 < n_iter)%Z →
  endswith (csv_name n_threads n_iter) ".csv" = true →
  trial perf_counter str_float can_open func n_threads n_iter w =
  wrapper_benchmark (clock perf_counter) str_float can_open 0 n_iter false
    (Some (csv_name n_threads n_iter)) (wrapper func n_threads n_iter) []
    (World (env w) (stdout w ++ [Progress (fn_name func) n_threads n_iter])
           (root_handlers w) (root_level w) (stderr w) (files w) (history w)).
Proof.
  intros Hpos Hsuffix. unfold trial, func_run.
  rewrite !bind_run, print_run, bind_run, Construction.benchmark_run.
  cbn [kw_warmups kw_iter kw_verbose kw_csv_file].
  change (default 0%Z None) with 0%Z.
  change (default 1%Z (Some n_iter)) with n_iter.
  change (default false None) with false.
  by rewrite Construction.benchmark_decorator_valid by (done || lia).
Qed.

(** A trial that returns has invoked the workload once per worker
    iteration in each of its [n_iter] timed slots, and has written its file. *)
Lemma trial_counts (n_threads n_iter : Z) (w w' : world) :
  (0 < n_iter)%Z →
  endswith (csv_name n_threads n_iter) ".csv" = true →
  trial perf_counter str_float can_open func n_threads n_iter w = (Returns tt, w') →
  invocations (env w') =
    invocations (env w) + Z.to_nat n_iter * (Z.to_nat n_threads * Z.to_nat n_iter) ∧
  ∃ lines, files w' = <[csv_name n_threads n_iter := csv_header :: lines]> (files w) ∧
           length lines = Z.to_nat n_iter.
Proof.
  intros Hpos Hsuffix Hrun. rewrite trial_run in Hrun by done.
  match type of Hrun with wrapper_benchmark _ _ _ _ _ _ _ _ _ ?w1 = _ =>
    pose proof (wrapper_benchmark_ending (clock perf_counter) str_float can_open
      0 n_iter false (Some (csv_name n_threads n_iter))
      (wrapper func n_threads n_iter) [] w1) as Hend end.
  cbv zeta in Hend. rewrite Hrun in Hend. cbn [fst snd] in Hend.
  destruct Hend
    as [| | | st wts mts _ _ _ Hfalsy
       | | st wts mts p Hlw Hlm _ Hp _ _ _ _ He _ Hf]; try done.
  injection Hp as <-. simpl in He, Hf. split.
  - rewrite He, slot_counts, Hlw, Hlm. simpl. lia.
  - eexists. split; [exact Hf|].
    unfold csv_lines. rewrite length_app, !length_imap. lia.
Qed.

Lemma sum_list_step (remaining : list nat) (k r : nat) :
  remaining !! k = Some (S r) →
  sum_list remaining = S (sum_list (<[k := r]> remaining)).
Proof.
  revert k. induction remaining as [|x l IH]; intros [|k] Hk; try done.
  - injection Hk as ->. done.
  - simpl in *. rewrite (IH k Hk). lia.
Qed.

(** Whatever the schedule, the calls made and the calls still to make add up
    to the calls there were to make. *)
Lemma interleaved_workers_count (schedule : list nat) :
  ∀ remaining tl,
  let r := interleave func schedule remaining tl in
  invocations r.2 + sum_list r.1 = invocations tl + sum_list remaining.
Proof.
  induction schedule as [|k rest IH]; intros remaining tl; [done|].
  cbn [interleave].
  destruct (remaining !! k) as [[|r]|] eqn:Hk; try apply IH.
  destruct (call_func_counts tl) as [Ho Hn].
  destruct (call_func func tl) as [o tl1]. simpl in Ho, Hn. subst o.
  cbv zeta. rewrite IH, Hn, (sum_list_step remaining k r Hk). lia.
Qed.

(** So [n_threads] workers of [n_iter] calls each, all joined, have invoked
    the workload [n_threads * n_iter] times under every schedule. *)
Lemma joined_workers_count (schedule : list nat) (n_threads n_iter : nat)
    (tl : tally E) :
  let r := interleave func schedule (replicate n_threads n_iter) tl in
  sum_list r.1 = 0 →
  invocations r.2 = invocations tl + n_threads * n_iter.
Proof.
  intros r Hdone.
  pose proof (interleaved_workers_count schedule (replicate n_threads n_iter) tl) as Hc.
  cbv zeta in Hc. fold r in Hc. rewrite sum_list_replicate in Hc. lia.
Qed.

Ltac each_trial H :=
  unfold trials in H;
  repeat (apply elem_of_cons in H as [[= -> ->]|H]);
  [ | | | | by apply elem_of_nil in H].

Ltac name_files :=
  let f1 := eval vm_compute in (csv_name 1 16) in
  let f2 := eval vm_compute in (csv_name 2 8) in
  let f3 := eval vm_compute in (csv_name 4 4) in
  let f4 := eval vm_compute in (csv_name 8 2) in
  change (csv_name 1 16) with f1 in *;
  change (csv_name 2 8) with f2 in *;
  change (csv_name 4 4) with f3 in *;
  change (csv_name 8 2) with f4 in *.

(** C1 as amended. For each of the four trials the split multiplies to 16
    and one call of the harness (one timed slot) invokes the workload 16
    times; the trial times the harness [n_iter] times, so it invokes the
    workload [16 * n_iter] times and writes its own file.  The four file
    names are distinct, and a run of [test] that returns has invoked the
    workload 256 + 128 + 64 + 32 = 480 times and written all four files. *)
Theorem trials_repeat_sixteen_invocations :
  (∀ t n, (t, n) ∈ trials →
     (t * n = 16)%Z ∧
     (∀ a tl, (fn_call (wrapper func t n) a tl).1 = Returns tt ∧
              invocations (fn_call (wrapper func t n) a tl).2 = invocations tl + 16) ∧
     (∀ w w' : world,
        trial perf_counter str_float can_open func t n w = (Returns tt, w') →
        invocations (env w') = invocations (env w) + Z.to_nat n * 16 ∧
        is_Some (files w' !! csv_name t n))) ∧
  NoDup ((λ p, csv_name p.1 p.2) <$> trials) ∧
  (∀ w w' : world,
     test perf_counter str_float can_open func w = (Returns tt, w') →
     invocations (env w') = invocations (env w) + 480 ∧
     ∀ t n, (t, n) ∈ trials → is_Some (files w' !! csv_name t n)).
Proof.
  split; [|split].
  - intros t n Hin. each_trial Hin.
    all: split; [done|split].
    1,3,5,7: intros a tl;
      match goal with |- context [wrapper func ?t ?n] =>
        destruct (harness_counts t n a tl) as [Ho Hn] end;
      (split; [exact Ho|rewrite Hn; simpl; lia]).
    all: intros w w' Hrun;
      apply trial_counts in Hrun as (Hn & lines & Hf & _);
      [ | lia | by vm_compute ];
      split; [rewrite Hn; simpl; lia | rewrite Hf, lookup_insert_eq; by eexists].
  - apply (bool_decide_unpack _). by vm_compute.
  - intros w w' Hrun. unfold test in Hrun.
    rewrite bind_run in Hrun.
    destruct (trial _ _ _ _ 1 16 w) as [[[]|e1] w1] eqn:H1; [|done].
    rewrite bind_run in Hrun.
    destruct (trial _ _ _ _ 2 8 w1) as [[[]|e2] w2] eqn:H2; [|done].
    rewrite bind_run in Hrun.
    destruct (trial _ _ _ _ 4 4 w2) as [[[]|e3] w3] eqn:H3; [|done].
    apply trial_counts in H1 as (Hn1 & l1 & Hf1 & _); [ | lia | by vm_compute].
    apply trial_counts in H2 as (Hn2 & l2 & Hf2 & _); [ | lia | by vm_compute].
    apply trial_counts in H3 as (Hn3 & l3 & Hf3 & _); [ | lia | by vm_compute].
    apply trial_counts in Hrun as (Hn4 & l4 & Hf4 & _); [ | lia | by vm_compute].
    split; [rewrite Hn4, Hn3, Hn2, Hn1; simpl; lia|].
    intros t n Hin. rewrite Hf4, Hf3, Hf2, Hf1. name_files.
    each_trial Hin; name_files.
    all: repeat (rewrite lookup_insert_ne by done).
    all: rewrite lookup_insert_eq; by eexists.
Qed.

End Counting.

End DriverFacts.

(* ===================================================================== *)
(** ** The scenarios, evaluated                                          *)
(* ===================================================================== *)

Module Evaluated.
Import Py Benchmark Driver Reference Scenario.

(** The sample run reports and writes what the program would. *)
Example sample_run_report :
  sample_run.1 = Returns tt ∧
  files sample_run.2 !! "out.csv" =
    Some ["run num, is warmup, timing"; "1, y, <t>"; "2, y, <t>";
          "1, n, <t>"; "2, n, <t>"; "3, n, <t>"] ∧
  length (stderr sample_run.2) = 5.
Proof. by vm_compute. Qed.

(** Population and sample variance differ: for the timings 9, 13 and 17
    of the measured slots of [varied_run] they are 32/3 and 16. *)
Example population_is_not_sample :
  population_variance [float_of_Z 9; float_of_Z 13; float_of_Z 17]
    = Returns (PrimFloat.div (float_of_Z 32) (float_of_Z 3)) ∧
  sample_variance [float_of_Z 9; float_of_Z 13; float_of_Z 17]
    = Returns (float_of_Z 16).
Proof. by vm_compute. Qed.

(** C1, counterexample. The first trial (1 worker, 16 iterations) returns
    after 256 invocations of the workload, not 16. *)
Lemma first_trial_invokes_256 :
  first_trial.1 = Returns tt ∧
  invocations (env first_trial.2) = 256 ∧
  invocations (env first_trial.2) ≠ 16.
Proof. by vm_compute. Qed.

(** C1, witness: [test] on a workload that returns. *)
Lemma trials_repeat_sixteen_invocations_witness :
  invocations (env test_run.2) = invocations (env (fresh (Tally 0 0))) + 480 ∧
  ∀ t n, (t, n) ∈ trials → is_Some (files test_run.2 !! csv_name t n).
Proof.
  apply (proj2 (proj2 (DriverFacts.trials_repeat_sixteen_invocations
           (scripted half_seconds) str_any writable quick (λ _ _, eq_refl)))
         (fresh (Tally 0 0)) test_run.2).
  by vm_compute.
Defined.

(** C2. The decorator applied with the file name omitted and valid counts:
    the decoration raises the [AttributeError] of [None.endswith], where a
    malformed name gets the [ValueError] of line 28; the two are not
    rejected alike, and the omitted name is not taken to mean that no CSV
    file is wanted. *)
Lemma omitted_filename_is_not_a_value_error :
  (decorated (scripted half_seconds) str_any writable
     (Kwargs None None None None) quick (fresh 0)).1
  = Raises (AttributeError "'NoneType' object has no attribute 'endswith'") ∧
  (decorated (scripted half_seconds) str_any writable
     (Kwargs None None None (Some "out.txt")) quick (fresh 0)).1
  = Raises (ValueError "`csv_file` is not a valid csv filename") ∧
  (decorated (scripted half_seconds) str_any writable
     (Kwargs None None None None) quick (fresh 0)).1
  ≠ (decorated (scripted half_seconds) str_any writable
       (Kwargs None None None (Some "out.txt")) quick (fresh 0)).1.
Proof. by repeat split. Qed.

(** C3, counterexample. The callable raises in the only slot, and the
    banner has been printed all the same: something was written. *)
Lemma failed_run_leaves_banner :
  failed_run.1 = Raises (Uncaught "boom") ∧
  stdout failed_run.2 = [Banner "f()"] ∧
  stdout failed_run.2 ≠ stdout (fresh 0).
Proof. by vm_compute. Qed.

(** C3, witness. *)
Lemma raising_callable_aborts_invocation_witness :
  failed_run.1 = Raises (Uncaught "boom") ∧
  last (history failed_run.2) = Some (Slot false 0 (Raises (Uncaught "boom"))) ∧
  stdout failed_run.2 = stdout (fresh 0) ++ [Banner (BenchmarkFacts.display_name failing [])] ∧
  files failed_run.2 = files (fresh 0).
Proof.
  apply (Reports.raising_callable_aborts_invocation
           (scripted half_seconds) str_any writable 0 1 false (Some "out.csv")
           failing [] (fresh 0) false 0 (Uncaught "boom")).
  vm_compute. constructor.
Defined.

(** The invocation of C4's witness: [busy] under two warmups and three
    measured slots, on the scripted clock. *)
Definition busy_run : outcome unit * world nat PrimFloat.float :=
  wrapper_benchmark (scripted half_seconds) str_any writable
    2 3 true (Some "out.csv") busy [] (fresh 0).

(** Each timed execution of [busy] moves the environment by 102: two clock
    readings and the mark of the call. *)
Example busy_run_environment :
  busy_run.1 = Returns tt ∧ env busy_run.2 = 510.
Proof. by vm_compute. Qed.

(** C4, witness: [busy] returns in the five slots of the invocation, though
    not in every environment. *)
Lemma slots_run_in_phase_order_witness :
  ∃ wts mts,
    Reports.added (fresh 0) busy_run.2 = slots true wts ++ slots false mts ∧
    Z.of_nat (length wts) = 2%Z ∧ Z.of_nat (length mts) = 3%Z ∧
    Z.of_nat (length (Reports.added (fresh 0) busy_run.2)) = (2 + 3)%Z ∧
    env busy_run.2
    = Nat.iter (Z.to_nat 2 + Z.to_nat 3)
        (BenchmarkFacts.tick (scripted half_seconds) busy []) (env (fresh 0)) ∧
    BenchmarkFacts.timed (scripted half_seconds) busy [] (fresh 0) (wts ++ mts).
Proof.
  apply (Reports.slots_run_in_phase_order
           (scripted half_seconds) str_any writable 2 3 true (Some "out.csv")
           busy [] (fresh 0)); [lia | lia | ].
  intros k Hk. do 5 (destruct k as [|k]; [reflexivity|]). simpl in Hk. lia.
Defined.

(** C5, witness: the row that [varied_run] prints, for the measured timings
    9, 13 and 17; the warmup timings 1 and 5 do not enter. *)
Lemma reported_variance_is_population_variance_witness :
  ∃ wts mts,
    Reports.added (fresh 0) varied_run.2 = slots true wts ++ slots false mts ∧
    length wts = Z.to_nat 2 ∧ length mts = Z.to_nat 3 ∧
    mean mts = Returns (float_of_Z 13) ∧
    population_variance mts = Returns (PrimFloat.div (float_of_Z 32) (float_of_Z 3)) ∧
    PrimFloat.sqrt (PrimFloat.div (float_of_Z 32) (float_of_Z 3))
    = num_sqrt (PrimFloat.div (float_of_Z 32) (float_of_Z 3)).
Proof.
  apply (Reports.reported_variance_is_population_variance
           (scripted square_seconds) str_any writable 2 3 true (Some "out.csv")
           quick ["20"] (fresh 0) (stdout varied_run.2)
           "f(20)" 3 2 (float_of_Z 9) (float_of_Z 17) (float_of_Z 13)
           (PrimFloat.div (float_of_Z 32) (float_of_Z 3))
           (PrimFloat.sqrt (PrimFloat.div (float_of_Z 32) (float_of_Z 3)))).
  - reflexivity.
  - vm_compute. do 3 apply list_elem_of_further. apply list_elem_of_here.
Defined.

(** C6, counterexample. For three timings of 0.1 the computed mean is
    0.10000000000000002, above the maximum 0.1: [mean <= max] is false.
    For ten timings of 0.1 it is 0.09999999999999999, below the minimum:
    [min <= mean] is false.  And for the timings 1e200 and 0 the square of
    line 76 overflows: no statistics are computed at all. *)
Lemma binary64_mean_outside_extremes :
  (st ← statistics 3 (replicate 3 tenth);
   mret (PrimFloat.leb (avg st) (time_max st), PrimFloat.ltb (time_max st) (avg st)))
  = Returns (false, true) ∧
  (st ← statistics 10 (replicate 10 tenth);
   mret (PrimFloat.leb (time_min st) (avg st), PrimFloat.ltb (avg st) (time_min st)))
  = Returns (false, true) ∧
  statistics 2 [float_of_Z (10 ^ 200); float_of_Z 0]
  = Raises (OverflowError "(34, 'Numerical result out of range')").
Proof. by vm_compute. Qed.

(** The same on a clock that only moves forward: the wrapper then prints a
    table whose mean is above its maximum. *)
Example mean_exceeds_max_in_a_report :
  (∀ k, k < 5 → PrimFloat.leb (three_tenths k) (three_tenths (S k)) = true) ∧
  match stdout (wrapper_benchmark (scripted three_tenths) str_any writable
                  0 3 false (Some "out.csv") quick [] (fresh 0)).2 with
  | [_; _; _; TableRow _ _ _ time_min time_max avg _ _; _] =>
      time_min = tenth ∧ time_max = tenth ∧ PrimFloat.ltb time_max avg = true
  | _ => False
  end.
Proof.
  split.
  - intros k Hk. do 5 (destruct k as [|k]; [by vm_compute|]). lia.
  - by vm_compute.
Qed.

(** The library of the scenarios returns no negative square. *)
Lemma correctly_rounded_squares : Binary64.nonnegative_squares.
Proof.
  intros a _. unfold pow_2, correctly_rounded.
  rewrite FloatAxioms.mul_spec. apply Binary64.mul_unsigned.
Qed.

(** C6, witness: the timings 9, 13 and 17. *)
Lemma computed_statistics_relations_witness :
  ∃ st, statistics (Z.of_nat (length [float_of_Z 9; float_of_Z 13; float_of_Z 17]))
          [float_of_Z 9; float_of_Z 13; float_of_Z 17] = Returns st ∧
        var st = PrimFloat.div (float_of_Z 32) (float_of_Z 3) ∧
        PrimFloat.ltb (var st) PrimFloat.zero = false ∧
        stdev st = PrimFloat.sqrt (var st) ∧
        ((∀ x, x ∈ [float_of_Z 9; float_of_Z 13; float_of_Z 17] → Binary64.is_number x) →
         PrimFloat.leb (time_min st) (time_max st) = true).
Proof.
  apply (Binary64.computed_statistics_relations
           [float_of_Z 9; float_of_Z 13; float_of_Z 17]
           (PrimFloat.div (float_of_Z 32) (float_of_Z 3))).
  - exact correctly_rounded_squares.
  - discriminate.
  - by vm_compute.
Defined.

(** C7, witness. *)
Lemma csv_file_lists_every_run_witness :
  ∃ path wts mts,
    Some "out.csv" = Some path ∧
    Reports.added (fresh 0) sample_run.2 = slots true wts ++ slots false mts ∧
    files sample_run.2 !! path = Some (csv_header :: csv_lines str_any "y" wts
                                                  ++ csv_lines str_any "n" mts) ∧
    length (csv_lines str_any "y" wts) = Z.to_nat 2 ∧
    length (csv_lines str_any "n" mts) = Z.to_nat 3.
Proof.
  apply (Reports.csv_file_lists_every_run
           (scripted half_seconds) str_any writable 2 3 true (Some "out.csv")
           quick ["20"] (fresh 0) sample_run.2); [reflexivity | by vm_compute].
Defined.

(** C8, witness. *)
Lemma invalid_configuration_raises_witness :
  ∃ msg, benchmark_decorator (scripted half_seconds) str_any writable
           (-1) 5 false (Some "out.csv") quick (fresh 0)
         = (Raises (ValueError msg), fresh 0).
Proof.
  apply Construction.invalid_configuration_raises. left. lia.
Defined.


End Evaluated.

(* ===================================================================== *)
(** ** Further facts: file names and construction                        *)
(* ===================================================================== *)

Module Names.
Import Py PyFacts Benchmark Reference Driver.

Lemma append_cons (a : Ascii.ascii) (s t : string) :
  String a s +:+ t = String a (s +:+ t).
Proof. reflexivity. Qed.

Lemma length_append (s t : string) :
  String.length (s +:+ t) = String.length s + String.length t.
Proof.
  induction s as [|a s IH]; [done|].
  rewrite append_cons. simpl. by rewrite IH.
Qed.

Lemma append_assoc (s t u : string) : (s +:+ t) +:+ u = s +:+ (t +:+ u).
Proof.
  induction s as [|a s IH]; [done|].
  rewrite !append_cons. by rewrite IH.
Qed.

Lemma substring_all (s : string) : String.substring 0 (String.length s) s = s.
Proof. induction s as [|a s IH]; simpl; [done|]. by rewrite IH. Qed.

Lemma substring_skip (pre s : string) (m : nat) :
  String.substring (String.length pre) m (pre +:+ s) = String.substring 0 m s.
Proof.
  induction pre as [|a pre IH]; [done|].
  rewrite append_cons. simpl. exact IH.
Qed.

(** A string is its first [k] characters followed by the rest. *)
Lemma substring_split (s : string) :
  ∀ k, k ≤ String.length s →
  s = String.substring 0 k s +:+ String.substring k (String.length s - k) s.
Proof.
  induction s as [|a s IH]; intros [|k] Hk; simpl in *; try done; try lia.
  - by rewrite substring_all.
  - rewrite append_cons. f_equal. apply IH. lia.
Qed.

(** [s.endswith(suffix)] holds exactly of the strings [prefix + suffix]. *)
Lemma endswith_iff_suffix (s suffix : string) :
  endswith s suffix = true ↔ ∃ prefix, s = prefix +:+ suffix.
Proof.
  unfold endswith. split.
  - intros [Hle Heq]%andb_true_iff. apply Nat.leb_le in Hle.
    apply String.eqb_eq in Heq.
    exists (String.substring 0 (String.length s - String.length suffix) s).
    pose proof (substring_split s (String.length s - String.length suffix)) as Hs.
    replace (String.length s - (String.length s - String.length suffix))
      with (String.length suffix) in Hs by lia.
    rewrite Heq in Hs. apply Hs. lia.
  - intros [prefix ->]. rewrite length_append.
    apply andb_true_iff. split; [apply Nat.leb_le; lia|].
    replace (String.length prefix + String.length suffix - String.length suffix)
      with (String.length prefix) by lia.
    rewrite substring_skip, substring_all. apply String.eqb_refl.
Qed.

(** The file name that [func_run] builds passes the suffix check, whatever
    the two counts are. *)
Lemma csv_name_valid (n_threads n_iter : Z) :
  endswith (csv_name n_threads n_iter) ".csv" = true.
Proof.
  apply endswith_iff_suffix.
  exists ("f_" +:+ pretty n_threads +:+ "_" +:+ pretty n_iter).
  unfold csv_name. by rewrite !append_assoc.
Qed.

Section Decorating.
Context {E T : Type} `{Arith T}.
Variable perf_counter : E → T * E.
Variable str_float : T → string.
Variable can_open : string → bool.

#[local] Abbreviation world := (world E T).

(** X1. Applying the decorator succeeds exactly for a non-negative warmup
    count, a positive iteration count and a file name of the form
    [prefix + '.csv']; it then returns the wrapper and changes nothing. *)
Theorem decoration_succeeds_iff (warmups iter : Z) (verbose : bool)
    (csv_file : option string) (func : callable E) (w : world) :
  ((0 ≤ warmups)%Z ∧ (0 < iter)%Z ∧ ∃ prefix, csv_file = Some (prefix +:+ ".csv"))
  ↔ benchmark_decorator perf_counter str_float can_open
      warmups iter verbose csv_file func w
    = (Returns (wrapper_benchmark perf_counter str_float can_open
                  warmups iter verbose csv_file func), w).
Proof.
  split.
  - intros (Hw & Hi & prefix & ->).
    apply Construction.benchmark_decorator_valid; try done.
    apply endswith_iff_suffix. by exists prefix.
  - intros Hdec.
    apply Construction.benchmark_decorator_accepts in Hdec
      as (Hw & Hi & (path & -> & Hsuffix) & _).
    apply endswith_iff_suffix in Hsuffix as [prefix ->].
    repeat split; try done. by exists prefix.
Qed.

End Decorating.

Section FuncRun.
Context {E T : Type} `{Arith T}.
Variable perf_counter : E → T * E.
Variable str_float : T → string.
Variable can_open : string → bool.
Variable func : callable E.

#[local] Abbreviation dworld := (Benchmark.world (tally E) T).

(** The world after the progress line of [func_run]. *)
Definition announced (n_threads n_iter : Z) (w : dworld) : dworld :=
  World (env w) (stdout w ++ [Progress (fn_name func) n_threads n_iter])
        (root_handlers w) (root_level w) (stderr w) (files w) (history w).

(** X2. [func_run] prints its progress line first; then it returns the wrapped
    harness for every positive iteration count, whatever the number of
    threads, and raises the [ValueError] of the iteration check otherwise.
    No workload runs in either case. *)
Theorem func_run_decorates_or_rejects (n_threads n_iter : Z) (w : dworld) :
  func_run perf_counter str_float can_open func n_threads n_iter w =
  if (0 <? n_iter)%Z then
    (Returns (wrapper_benchmark (clock perf_counter) str_float can_open
                0 n_iter false (Some (csv_name n_threads n_iter))
                (wrapper func n_threads n_iter)),
     announced n_threads n_iter w)
  else
    (Raises (ValueError "`iter` argument is invalid (must be >= 0)"),
     announced n_threads n_iter w).
Proof.
  unfold func_run.
  rewrite bind_run, BenchmarkFacts.print_run, bind_run, Construction.benchmark_run.
  cbn [kw_warmups kw_iter kw_verbose kw_csv_file].
  change (default 0%Z None) with 0%Z.
  change (default 1%Z (Some n_iter)) with n_iter.
  change (default false None) with false.
  fold (announced n_threads n_iter w).
  destruct (Z.ltb_spec 0 n_iter) as [Hpos|Hneg].
  - rewrite Construction.benchmark_decorator_valid;
      [done | lia | done | apply csv_name_valid].
  - unfold benchmark_decorator. cbn [Z.ltb Z.compare].
    destruct (Z.leb_spec n_iter 0); [done|lia].
Qed.

End FuncRun.

End Names.

(* ===================================================================== *)
(** ** Further facts: the harness and a workload that may raise          *)
(* ===================================================================== *)

Module Harness.
Import Py PyFacts Benchmark Reference Driver.

Section AnyWorkload.
Context {E : Type}.
Variable func : callable E.

Lemma call_func_once (tl : tally E) :
  invocations (call_func func tl).2 = S (invocations tl).
Proof. unfold call_func. by destruct (fn_call func [] (inner tl)). Qed.

(** A worker makes at most one call per round of its loop, and at least one
    call when it has a round to make. *)
Lemma worker_bounds {A} (xs : list A) :
  ∀ tl, let r := for_in xs tt (λ _ _, call_func func) tl in
  invocations tl + Nat.min 1 (length xs) ≤ invocations r.2 ≤ invocations tl + length xs.
Proof.
  induction xs as [|x xs IH]; intros tl.
  - simpl. lia.
  - rewrite for_in_cons. pose proof (call_func_once tl) as Hn.
    destruct (call_func func tl) as [[[]|e] tl1]; simpl in Hn.
    + specialize (IH tl1). cbv zeta in *. simpl length. lia.
    + cbv zeta. simpl. lia.
Qed.

(** Starting the threads never raises, whatever the workers do. *)
Lemma started_threads_bounds {A} (n_iter : Z) (xs : list A) :
  ∀ tl, let r := for_in ((λ _, iterate_f func n_iter) <$> xs) tt
                   (λ t _, thread_run t) tl in
  r.1 = Returns tt ∧
  invocations tl + length xs * Nat.min 1 (Z.to_nat n_iter) ≤ invocations r.2
    ≤ invocations tl + length xs * Z.to_nat n_iter.
Proof.
  induction xs as [|x xs IH]; intros tl.
  - simpl. split; [done|lia].
  - rewrite fmap_cons, for_in_cons. unfold thread_run at 1.
    pose proof (worker_bounds (range n_iter) tl) as Hb.
    cbv zeta in Hb. rewrite range_length in Hb.
    change (for_in (range n_iter) tt (λ _ _, call_func func) tl)
      with (iterate_f func n_iter tl) in Hb.
    destruct (iterate_f func n_iter tl) as [o tl1]. cbn [snd] in Hb.
    destruct (IH tl1) as [Ho Hi]. cbv zeta. rewrite Ho. simpl length.
    rewrite !Nat.mul_succ_l. split; [done|lia].
Qed.

(** The outcome of the harness is that of joining the threads. *)
Lemma harness_returns (n_threads n_iter : Z) (a : list string) (tl : tally E) :
  (fn_call (wrapper func n_threads n_iter) a tl).1 = Returns tt.
Proof.
  simpl. rewrite bind_run.
  destruct (started_threads_bounds n_iter (range n_threads) tl) as [Ho _].
  cbv zeta in Ho.
  destruct (for_in _ tt (λ t _, thread_run t) tl) as [o tl1].
  simpl in Ho. subst o. by rewrite DriverFacts.joined_threads.
Qed.

(** X3. A call of the harness always returns: an exception of the workload
    ends the worker that met it and never reaches the caller.  The harness
    makes at least one call of the workload per worker (when [n_iter] is
    positive) and at most [n_threads * n_iter]. *)
Theorem harness_never_raises (n_threads n_iter : Z) (a : list string) (tl : tally E) :
  let r := fn_call (wrapper func n_threads n_iter) a tl in
  r.1 = Returns tt ∧
  invocations tl + Z.to_nat n_threads * Nat.min 1 (Z.to_nat n_iter) ≤ invocations r.2
    ≤ invocations tl + Z.to_nat n_threads * Z.to_nat n_iter.
Proof.
  cbv zeta. simpl. rewrite bind_run.
  destruct (started_threads_bounds n_iter (range n_threads) tl) as [Ho Hn].
  cbv zeta in Ho, Hn. rewrite range_length in Hn.
  destruct (for_in _ tt (λ t _, thread_run t) tl) as [o tl1].
  simpl in Ho, Hn. subst o. by rewrite DriverFacts.joined_threads.
Qed.

(** When every call of the workload raises, each worker ends at its first
    call. *)
Lemma failing_worker {A} (xs : list A) (tl : tally E) :
  (∀ a e, ∃ x, (fn_call func a e).1 = Raises x) →
  invocations (for_in xs tt (λ _ _, call_func func) tl).2
  = invocations tl + Nat.min 1 (length xs).
Proof.
  intros Hfail. destruct xs as [|x xs]; [simpl; lia|].
  rewrite for_in_cons. pose proof (call_func_once tl) as Hn.
  unfold call_func in *. destruct (Hfail [] (inner tl)) as [e He].
  destruct (fn_call func [] (inner tl)) as [o e1]. simpl in *. subst o.
  simpl. lia.
Qed.

Lemma failing_threads {A} (n_iter : Z) (xs : list A) :
  (∀ a e, ∃ x, (fn_call func a e).1 = Raises x) →
  ∀ tl, invocations (for_in ((λ _, iterate_f func n_iter) <$> xs) tt
                       (λ t _, thread_run t) tl).2
        = invocations tl + length xs * Nat.min 1 (Z.to_nat n_iter).
Proof.
  intros Hfail. induction xs as [|x xs IH]; intros tl.
  - simpl. lia.
  - rewrite fmap_cons, for_in_cons. unfold thread_run at 1.
    pose proof (failing_worker (range n_iter) tl Hfail) as Hb.
    rewrite range_length in Hb.
    change (for_in (range n_iter) tt (λ _ _, call_func func) tl)
      with (iterate_f func n_iter tl) in Hb.
    destruct (iterate_f func n_iter tl) as [o tl1]. cbn [snd] in Hb.
    rewrite IH, Hb. simpl length. rewrite Nat.mul_succ_l. lia.
Qed.

(** X4. With a workload that always raises, a call of the harness still
    returns, after exactly one call of the workload per worker. *)
Theorem failing_workload_is_called_once_per_worker (n_threads n_iter : Z)
    (a : list string) (tl : tally E) :
  (∀ a e, ∃ x, (fn_call func a e).1 = Raises x) →
  (0 < n_iter)%Z →
  (fn_call (wrapper func n_threads n_iter) a tl).1 = Returns tt ∧
  invocations (fn_call (wrapper func n_threads n_iter) a tl).2
    = invocations tl + Z.to_nat n_threads.
Proof.
  intros Hfail Hpos.
  split; [apply harness_returns|].
  simpl. rewrite bind_run.
  pose proof (failing_threads n_iter (range n_threads) Hfail tl) as Hn.
  rewrite range_length in Hn.
  replace (Nat.min 1 (Z.to_nat n_iter)) with 1 in Hn by lia.
  rewrite Nat.mul_1_r in Hn.
  destruct (for_in _ tt (λ t _, thread_run t) tl) as [[[]|e] tl1]; cbn [snd] in Hn.
  - rewrite DriverFacts.joined_threads. cbn [snd]. rewrite Hn. lia.
  - cbn [snd]. rewrite Hn. lia.
Qed.

(** X18. For a workload that returns, the order in which the threads take
    their turns does not matter: once every worker has made its calls, the
    workload has been invoked as many times as by the threads run one
    after the other in start order. *)
Theorem every_schedule_counts_alike (schedule : list nat) (n_threads n_iter : nat)
    (a : list string) (tl : tally E) :
  (∀ a e, (fn_call func a e).1 = Returns tt) →
  let r := interleave func schedule (replicate n_threads n_iter) tl in
  sum_list r.1 = 0 →
  invocations r.2
  = invocations (fn_call (wrapper func (Z.of_nat n_threads) (Z.of_nat n_iter)) a tl).2.
Proof.
  intros Hret r Hdone.
  destruct (DriverFacts.harness_counts func Hret (Z.of_nat n_threads) (Z.of_nat n_iter) a tl)
    as [_ ->].
  rewrite !Nat2Z.id.
  exact (DriverFacts.joined_workers_count func Hret schedule n_threads n_iter tl Hdone).
Qed.

End AnyWorkload.

End Harness.

(* ===================================================================== *)
(** ** Further facts: relations kept by every step of a computation     *)
(* ===================================================================== *)

Module Keeping.
Import Py PyFacts.

Section Relation.
Context {S : Type}.
Variable R : S → S → Prop.
Hypothesis R_refl : ∀ s, R s s.
Hypothesis R_trans : ∀ s1 s2 s3, R s1 s2 → R s2 s3 → R s1 s3.

(** [m] relates every state to the state it leaves, return or raise. *)
Definition keeps {A} (m : M S A) : Prop := ∀ s, R s (m s).2.

Lemma keeps_ret {A} (a : A) : keeps (mret a).
Proof. intros s. apply R_refl. Qed.

Lemma keeps_raise {A} (e : exn) : keeps (raise e : M S A).
Proof. intros s. apply R_refl. Qed.

Lemma keeps_lift {A} (o : outcome A) : keeps (lift o).
Proof. intros s. apply R_refl. Qed.

Lemma keeps_modify (f : S → S) : (∀ s, R s (f s)) → keeps (modify f).
Proof. intros Hf s. apply Hf. Qed.

Lemma keeps_bind {A B} (m : M S A) (f : A → M S B) :
  keeps m → (∀ a, keeps (f a)) → keeps (m ≫= f).
Proof.
  intros Hm Hf s. rewrite bind_run. specialize (Hm s).
  destruct (m s) as [[a|e] s1]; simpl in *; [|done].
  eapply R_trans; [exact Hm|apply Hf].
Qed.

Lemma keeps_for_in {A B} (xs : list A) (body : A → B → M S B) :
  (∀ i acc, keeps (body i acc)) → ∀ acc, keeps (for_in xs acc body).
Proof.
  intros Hbody. induction xs as [|i xs IH]; intros acc.
  - apply keeps_ret.
  - apply keeps_bind; [apply Hbody|apply IH].
Qed.

Lemma keeps_if {A} (b : bool) (m1 m2 : M S A) :
  keeps m1 → keeps m2 → keeps (if b then m1 else m2).
Proof. by destruct b. Qed.

End Relation.

End Keeping.

(* ===================================================================== *)
(** ** Further facts: what an invocation logs                            *)
(* ===================================================================== *)

Module Logging.
Import Py PyFacts Benchmark Reference BenchmarkFacts Keeping.

(** The record that [run] hands to [logging.info] for a slot that returned. *)
Definition log_of {T} (fname : string) (s : slot T) : list (log_record T) :=
  match result s with
  | Returns t => [LogRecord (is_warmup s) (index s + 1) fname t]
  | Raises _ => []
  end.

(** What reaches the log at a given root level. *)
Definition logged {T} (level : loglevel) (fname : string) (new : list (slot T))
  : list (log_record T) :=
  match level with
  | INFO => new ≫= log_of fname
  | WARNING => []
  end.

Definition returned {T} (s : slot T) : bool :=
  match result s with Returns _ => true | Raises _ => false end.

(** The root level that lines 36-40 leave behind. *)
Definition level_after {E T} (verbose : bool) (w : world E T) : loglevel :=
  if verbose then (if root_handlers w then root_level w else INFO) else WARNING.

Section Invocation.
Context {E T : Type} `{Arith T}.
Variable perf_counter : E → T * E.
Variable str_float : T → string.
Variable can_open : string → bool.
Variables (warmups iter : Z) (verbose : bool) (csv_file : option string).
Variable func : callable E.
Variable args : list string.

#[local] Abbreviation world := (world E T).
#[local] Abbreviation fname := (display_name func args).

(** From [w] to [w']: the root level stays, the slots [new] were added to
    the history and logged as far as the level allows, and a handler is
    installed as soon as one slot has returned. *)
Definition logs (w w' : world) : Prop :=
  root_level w' = root_level w ∧
  ∃ new, history w' = history w ++ new ∧
         stderr w' = stderr w ++ logged (root_level w) fname new ∧
         root_handlers w' = root_handlers w || existsb returned new.

Lemma logs_refl (w : world) : logs w w.
Proof.
  split; [done|]. exists []. rewrite !app_nil_r, orb_false_r.
  repeat split; try done. destruct (root_level w); simpl; by rewrite ?app_nil_r.
Qed.

Lemma logged_app (level : loglevel) (new1 new2 : list (slot T)) :
  logged level fname (new1 ++ new2) = logged level fname new1 ++ logged level fname new2.
Proof. destruct level; simpl; [apply bind_app|done]. Qed.

Lemma logs_trans (w1 w2 w3 : world) : logs w1 w2 → logs w2 w3 → logs w1 w3.
Proof.
  intros (Hl1 & new1 & Hh1 & Hs1 & Hr1) (Hl2 & new2 & Hh2 & Hs2 & Hr2).
  split; [congruence|]. exists (new1 ++ new2).
  rewrite Hh2, Hh1, Hs2, Hs1, Hr2, Hr1, Hl1, logged_app, existsb_app, !app_assoc, orb_assoc.
  done.
Qed.

(** Steps that leave the logger and the history alone. *)
Lemma logs_untouched (w w' : world) :
  root_level w' = root_level w → root_handlers w' = root_handlers w →
  stderr w' = stderr w → history w' = history w → logs w w'.
Proof.
  intros Hl Hr Hs Hh. split; [done|]. exists [].
  rewrite Hh, Hs, Hr, !app_nil_r, orb_false_r. repeat split; try done.
  destruct (root_level w); simpl; by rewrite ?app_nil_r.
Qed.

Lemma print_logs (c : console T) : keeps logs (print c : M world unit).
Proof. intros w. by apply logs_untouched. Qed.

Lemma open_logs (path : string) : keeps logs (open_w can_open path).
Proof. intros w. unfold open_w. destruct (can_open path); by apply logs_untouched. Qed.

Lemma print_to_logs (path line : string) : keeps logs (print_to path line : M world unit).
Proof. intros w. by apply logs_untouched. Qed.

Lemma run_logs (b : bool) (i : Z) : keeps logs (run perf_counter func args fname b i).
Proof.
  intros w. unfold run.
  destruct (perf_counter (env w)) as [t0 e1].
  destruct (fn_call func args e1) as [[[]|x] e2].
  - destruct (perf_counter e2) as [t1 e3].
    rewrite bind_run. unfold logging_info, modify. simpl.
    split; [by destruct (root_level w)|].
    exists [Slot b i (Returns (num_sub t1 t0))].
    destruct (root_level w); simpl; rewrite ?app_nil_r, ?orb_true_r; done.
  - simpl. split; [done|]. exists [Slot b i (Raises x)].
    destruct (root_level w); simpl; rewrite ?app_nil_r, ?orb_false_r; done.
Qed.

Lemma write_csv_logs (path : string) (wts mts : list T) :
  keeps logs (write_csv str_float can_open warmups iter path wts mts).
Proof.
  unfold write_csv.
  repeat first
    [ apply open_logs | apply print_to_logs
    | apply (keeps_lift logs logs_refl) | apply (keeps_ret logs logs_refl)
    | apply (keeps_for_in logs logs_refl logs_trans); intros ? ?
    | apply (keeps_bind logs logs_trans); [|intros ?] ].
Qed.

(** Everything after lines 36-40. *)
Definition measured_part : M world unit :=
  print (Banner fname) ;;
  warmup_times ← for_in (range warmups) [] (λ i acc,
    t ← run perf_counter func args fname true i; mret (acc ++ [t]));
  times ← for_in (range iter) [] (λ i acc,
    t ← run perf_counter func args fname false i; mret (acc ++ [t]));
  st ← lift (statistics iter times);
  print TableHeader ;;
  print TableRule ;;
  print (TableRow fname iter warmups (time_min st) (time_max st) (avg st) (var st) (stdev st)) ;;
  (if truthy csv_file then write_csv str_float can_open warmups iter (default "" csv_file) warmup_times times
   else mret tt) ;;
  print EndBanner.

Lemma wrapper_benchmark_parts (w : world) :
  wrapper_benchmark perf_counter str_float can_open
    warmups iter verbose csv_file func args w
  = measured_part (set_verbosity verbose w).2.
Proof. reflexivity. Qed.

Lemma measured_part_logs : keeps logs measured_part.
Proof.
  unfold measured_part.
  repeat first
    [ apply print_logs | apply run_logs | apply write_csv_logs
    | apply (keeps_lift logs logs_refl) | apply (keeps_ret logs logs_refl)
    | apply (keeps_if logs)
    | apply (keeps_for_in logs logs_refl logs_trans); intros ? ?
    | apply (keeps_bind logs logs_trans); [|intros ?] ].
Qed.

(** The logger after an invocation, in terms of the logger before it. *)
Lemma invocation_log (w : world) :
  let w' := (wrapper_benchmark perf_counter str_float can_open
               warmups iter verbose csv_file func args w).2 in
  root_level w' = level_after verbose w ∧
  stderr w' = stderr w ++ logged (level_after verbose w) fname (Reports.added w w') ∧
  root_handlers w' =
    (if verbose then true else root_handlers w)
    || existsb returned (Reports.added w w').
Proof.
  cbv zeta. rewrite wrapper_benchmark_parts.
  destruct (measured_part_logs (set_verbosity verbose w).2)
    as (Hl & new & Hh & Hs & Hr).
  assert (root_level (set_verbosity verbose w).2 = level_after verbose w) as Hlevel.
  { unfold set_verbosity, modify, level_after. simpl.
    destruct verbose; [destruct (root_handlers w)|]; done. }
  assert (history (set_verbosity verbose w).2 = history w
          ∧ stderr (set_verbosity verbose w).2 = stderr w) as [Hh0 Hs0].
  { unfold set_verbosity, modify. simpl.
    destruct verbose; [destruct (root_handlers w)|]; done. }
  assert (root_handlers (set_verbosity verbose w).2
          = if verbose then true else root_handlers w) as Hr0.
  { unfold set_verbosity, modify. simpl.
    destruct verbose; [destruct (root_handlers w) eqn:Hrw|]; done. }
  rewrite Hh0 in Hh. rewrite (Reports.added_app _ _ _ Hh).
  rewrite Hl, Hs, Hr, Hlevel, Hs0, Hr0. done.
Qed.

(** X5. Whatever its outcome, an invocation logs exactly its slots that
    returned, in the order in which they ran, each with its phase, its
    number from 1, the display name and the elapsed time - when the root
    level left by lines 36-40 is INFO, and nothing otherwise.  That level
    is INFO only for a verbose wrapper in a process whose root logger had no
    handler, or was at INFO already. *)
Theorem invocation_logs_returned_slots (w : world) :
  let w' := (wrapper_benchmark perf_counter str_float can_open
               warmups iter verbose csv_file func args w).2 in
  root_level w' = level_after verbose w ∧
  stderr w' = stderr w ++ logged (level_after verbose w) fname (Reports.added w w') ∧
  root_handlers w' =
    (if verbose then true else root_handlers w)
    || existsb returned (Reports.added w w').
Proof. exact (invocation_log w). Qed.

End Invocation.

Section Successive.
Context {E T : Type} `{Arith T}.
Variable perf_counter : E → T * E.
Variable str_float : T → string.
Variable can_open : string → bool.

#[local] Abbreviation world := (world E T).

Lemma some_slot_returned (wts mts : list T) :
  mts ≠ [] → existsb returned (slots true wts ++ slots false mts) = true.
Proof.
  intros Hne. rewrite existsb_app. destruct mts as [|t mts]; [done|].
  apply orb_true_iff. by right.
Qed.

(** A wrapper that is not verbose, once an invocation of it has returned,
    leaves the root logger with a handler and at WARNING ... *)
Lemma quiet_invocation_installs_handler (warmups iter : Z)
    (csv_file : option string) (func : callable E) (args : list string)
    (w w1 : world) :
  wrapper_benchmark perf_counter str_float can_open
    warmups iter false csv_file func args w = (Returns tt, w1) →
  root_handlers w1 = true ∧ root_level w1 = WARNING.
Proof.
  intros Hrun.
  pose proof (invocation_log perf_counter str_float can_open
                warmups iter false csv_file func args w) as Hlog.
  pose proof (wrapper_benchmark_ending perf_counter str_float can_open
                warmups iter false csv_file func args w) as Hend.
  cbv zeta in Hlog, Hend. rewrite Hrun in Hlog, Hend. cbn [fst snd] in Hlog, Hend.
  destruct Hlog as (Hl & _ & Hr). split; [|exact Hl].
  rewrite Hr. apply orb_true_iff. right.
  destruct Hend
    as [| | | st wts mts _ _ Hst _ _ Hh _ _ _
       | | st wts mts p _ _ Hst _ _ _ _ Hh _ _ _]; try done;
    rewrite (Reports.added_app _ _ _ Hh);
    apply some_slot_returned;
    by destruct (Reports.statistics_defined _ _ _ Hst).
Qed.

(** X6. ... so that a verbose wrapper invoked afterwards logs nothing at
    all: [basicConfig] finds the handler and leaves the level at WARNING. *)
Theorem verbose_after_quiet_logs_nothing
    (warmups1 iter1 : Z) (csv_file1 : option string) (func1 : callable E)
    (args1 : list string)
    (warmups2 iter2 : Z) (csv_file2 : option string) (func2 : callable E)
    (args2 : list string) (w w1 : world) :
  wrapper_benchmark perf_counter str_float can_open
    warmups1 iter1 false csv_file1 func1 args1 w = (Returns tt, w1) →
  stderr (wrapper_benchmark perf_counter str_float can_open
            warmups2 iter2 true csv_file2 func2 args2 w1).2 = stderr w1.
Proof.
  intros Hrun.
  destruct (quiet_invocation_installs_handler _ _ _ _ _ _ _ Hrun) as [Hr Hl].
  destruct (invocation_log perf_counter str_float can_open
              warmups2 iter2 true csv_file2 func2 args2 w1) as (_ & Hs & _).
  rewrite Hs. unfold level_after. rewrite Hr, Hl. simpl. apply app_nil_r.
Qed.

(** X7. In a process whose root logger has no handler yet, a verbose
    wrapper logs one record per slot that returned. *)
Theorem first_verbose_invocation_logs_every_slot
    (warmups iter : Z) (csv_file : option string) (func : callable E)
    (args : list string) (w : world) :
  root_handlers w = false →
  let w' := (wrapper_benchmark perf_counter str_float can_open
               warmups iter true csv_file func args w).2 in
  stderr w' = stderr w ++ (Reports.added w w' ≫= log_of (display_name func args)).
Proof.
  intros Hr.
  destruct (invocation_log perf_counter str_float can_open
              warmups iter true csv_file func args w) as (_ & Hs & _).
  cbv zeta. rewrite Hs. unfold level_after. by rewrite Hr.
Qed.

End Successive.

End Logging.

(* ===================================================================== *)
(** ** Further facts: files, and the extremes of a sample                *)
(* ===================================================================== *)

Module Files.
Import Py PyFacts Benchmark Reference BenchmarkFacts.

Section Invocation.
Context {E T : Type} `{Arith T}.
Variable perf_counter : E → T * E.
Variable str_float : T → string.
Variable can_open : string → bool.
Variables (warmups iter : Z) (verbose : bool) (csv_file : option string).
Variable func : callable E.
Variable args : list string.

#[local] Abbreviation world := (world E T).
#[local] Abbreviation invoke :=
  (wrapper_benchmark perf_counter str_float can_open
     warmups iter verbose csv_file func args).

(** The console lines an invocation started in [w] has added. *)
Definition printed (w w' : world) : list (console T) :=
  drop (length (stdout w)) (stdout w').

Lemma printed_app (w w' : world) (new : list (console T)) :
  stdout w' = stdout w ++ new → printed w w' = new.
Proof. unfold printed. intros ->. apply drop_app_length. Qed.

(** X8. Whatever its outcome, an invocation leaves every file other than
    the configured one as it was. *)
Theorem other_files_untouched (w : world) (p : string) :
  csv_file ≠ Some p →
  files (invoke w).2 !! p = files w !! p.
Proof.
  intros Hp.
  destruct (wrapper_benchmark_ending perf_counter str_float can_open
              warmups iter verbose csv_file func args w)
    as [? ? _ _ _ _ _ Hf|? ? ? _ _ _ _ _ _ Hf
       | ? ? ? _ _ _ _ _ _ _ Hf
       | ? ? ? _ _ _ _ _ _ _ _ Hf
       | ? ? ? ? _ _ _ _ _ _ _ _ _ _ Hf
       | ? ? ? path _ _ _ Hcsv _ _ _ _ _ _ Hf];
    rewrite Hf; try done.
  apply lookup_insert_ne. congruence.
Qed.

(** X9. When the configured file cannot be opened, no invocation returns
    normally, none changes a file, and none prints the closing banner. *)
Theorem unopenable_file_aborts (w : world) (path : string) :
  csv_file = Some path → path ≠ "" → can_open path = false →
  (invoke w).1 ≠ Returns tt ∧
  files (invoke w).2 = files w ∧
  EndBanner ∉ printed w (invoke w).2.
Proof.
  intros Hcsv Hpath Hopen.
  assert (truthy csv_file = true) as Htruthy.
  { rewrite Hcsv. simpl. apply negb_true_iff. by apply String.eqb_neq. }
  destruct (wrapper_benchmark_ending perf_counter str_float can_open
              warmups iter verbose csv_file func args w)
    as [? ? _ _ Ho _ Hs Hf|? ? ? _ _ _ Ho _ Hs Hf
       | ? ? ? _ _ _ Ho _ _ Hs Hf
       | ? ? ? _ _ _ Hfalsy _ _ _ _ _
       | ? ? ? ? _ _ _ _ _ _ Ho _ _ Hs Hf
       | ? ? ? p _ _ _ Hp _ Hcan _ _ _ _ _].
  1-3, 5: rewrite Ho, Hf, (printed_app _ _ _ Hs);
          repeat split; try done;
          intros Hin; repeat (apply elem_of_cons in Hin as [Hin|Hin]; [done|]);
          by apply elem_of_nil in Hin.
  - congruence.
  - rewrite Hcsv in Hp. injection Hp as <-. congruence.
Qed.

End Invocation.

End Files.

Module Extremes.
Import Py Benchmark Reference.

Section Sample.
Context {T : Type} `{Arith T}.

(** A running choice between the current value and the next one ends on a
    value of the sequence. *)
Lemma fold_choice (pick : T → T → bool) (rest : list T) :
  ∀ x, fold_left (λ m y, if pick m y then y else m) rest x ∈ x :: rest.
Proof.
  induction rest as [|y rest IH]; intros x; simpl.
  - by left.
  - specialize (IH (if pick x y then y else x)).
    apply elem_of_cons in IH as [->|IH].
    + destruct (pick x y); [right; by left | by left].
    + right. by right.
Qed.

(** X10. The reported minimum and maximum are timings of the sample
    itself, whatever the arithmetic. *)
Theorem extremes_are_sample_members (iter : Z) (times : list T) (st : stats T) :
  statistics iter times = Returns st →
  time_min st ∈ times ∧ time_max st ∈ times.
Proof.
  intros (d & squares & _ & _ & Hlo & Hhi & _)%Reports.statistics_inv.
  destruct times as [|x rest]; [done|].
  injection Hlo as <-. injection Hhi as <-. split.
  - apply (fold_choice (λ m y, num_lt y m)).
  - apply (fold_choice (λ m y, num_lt m y)).
Qed.

End Sample.

End Extremes.

(* ===================================================================== *)
(** ** The demonstration workload [fib]                                  *)
(* ===================================================================== *)

Module Workload.
Import Py PyFacts.

(** Lines 144-148.  The state counts the calls of [fib] that have started;
    [frames] is the number of stack frames the interpreter still grants:
    a call made with none left raises [RecursionError]. *)
Fixpoint fib (frames : nat) (n : Z) : M nat Z :=
  match frames with
  | 0 => raise (Uncaught "RecursionError")
  | S frames' =>
      modify S ;;
      if (n <=? 1)%Z then mret 1%Z
      else
        a ← fib frames' (n - 1);
        b ← fib frames' (n - 2);
        mret (a + b)%Z
  end.

(** The Fibonacci numbers 0, 1, 1, 2, 3, 5, ... *)
Fixpoint fibonacci (k : nat) : Z :=
  match k with
  | O => 0%Z
  | S k' =>
      match k' with
      | O => 1%Z
      | S k'' => (fibonacci k' + fibonacci k'')%Z
      end
  end.

Lemma fib_step (frames : nat) (n : Z) (c : nat) :
  fib (S frames) n c =
  if (n <=? 1)%Z then (Returns 1%Z, S c)
  else
    match fib frames (n - 1) (S c) with
    | (Returns a, c1) =>
        match fib frames (n - 2) c1 with
        | (Returns b, c2) => (Returns (a + b)%Z, c2)
        | (Raises e, c2) => (Raises e, c2)
        end
    | (Raises e, c1) => (Raises e, c1)
    end.
Proof.
  cbn [fib]. rewrite bind_run. unfold modify.
  destruct (n <=? 1)%Z; [done|].
  rewrite bind_run. destruct (fib frames (n - 1) (S c)) as [[a|e] c1]; [|done].
  rewrite bind_run. by destruct (fib frames (n - 2) c1) as [[b|e] c2].
Qed.

Lemma fibonacci_step (k : nat) :
  fibonacci (S (S k)) = (fibonacci (S k) + fibonacci k)%Z.
Proof. reflexivity. Qed.

Lemma fibonacci_positive (k : nat) : (0 < fibonacci (S k))%Z.
Proof.
  assert (0 ≤ fibonacci k ∧ 0 < fibonacci (S k))%Z as [_ Hk]; [|done].
  induction k as [|k [IH0 IH1]]; [done|].
  rewrite fibonacci_step. lia.
Qed.

(** A call of [fib] with frames enough: its value and its calls. *)
Lemma fib_run (frames : nat) :
  ∀ (n : Z) (c : nat),
  (Z.max n 1 ≤ Z.of_nat frames)%Z →
  fib frames n c =
  (Returns (fibonacci (S (Z.to_nat n))),
   c + Z.to_nat (2 * fibonacci (S (Z.to_nat n)) - 1)).
Proof.
  induction frames as [|frames IH]; intros n c Hdepth; [lia|].
  rewrite fib_step. destruct (Z.leb_spec n 1) as [Hbase|Hrec].
  - assert (Z.to_nat n = 0 ∨ Z.to_nat n = 1) as [-> | ->] by lia;
      simpl; f_equal; lia.
  - rewrite (IH (n - 1)%Z) by lia. rewrite (IH (n - 2)%Z) by lia.
    replace (Z.to_nat n) with (S (S (Z.to_nat (n - 2)))) by lia.
    replace (Z.to_nat (n - 1)) with (S (Z.to_nat (n - 2))) by lia.
    set (k := Z.to_nat (n - 2)).
    pose proof (fibonacci_positive k). pose proof (fibonacci_positive (S k)).
    pose proof (fibonacci_step k). rewrite (fibonacci_step (S k)).
    f_equal. lia.
Qed.

(** X13. With as many frames as its depth, [fib n] returns the Fibonacci
    number of index [n + 1] (1 for every [n <= 1], negative ones included)
    after [2 * fib n - 1] calls of [fib] in all. *)
Theorem fib_computes_fibonacci (frames : nat) (n : Z) (c : nat) :
  (Z.max n 1 ≤ Z.of_nat frames)%Z →
  fib frames n c =
  (Returns (fibonacci (S (Z.to_nat n))),
   c + Z.to_nat (2 * fibonacci (S (Z.to_nat n)) - 1)).
Proof. exact (fib_run frames n c). Qed.

(** X14. With fewer frames than its depth, [fib n] raises
    [RecursionError]. *)
Theorem fib_exceeds_recursion_limit (frames : nat) :
  ∀ (n : Z) (c : nat),
  (Z.of_nat frames < Z.max n 1)%Z →
  (fib frames n c).1 = Raises (Uncaught "RecursionError").
Proof.
  induction frames as [|frames IH]; intros n c Hdepth; [done|].
  rewrite fib_step. destruct (Z.leb_spec n 1) as [Hbase|Hrec]; [lia|].
  specialize (IH (n - 1)%Z (S c)).
  destruct (fib frames (n - 1) (S c)) as [[a|e] c1]; simpl in *.
  - assert (Z.of_nat frames < Z.max (n - 1) 1)%Z as Hd by lia.
    by specialize (IH Hd).
  - assert (Z.of_nat frames < Z.max (n - 1) 1)%Z as Hd by lia.
    by specialize (IH Hd).
Qed.

End Workload.

(* ===================================================================== *)
(** ** Further facts: invocations that only the arithmetic can stop      *)
(* ===================================================================== *)

Module Completion.
Import Py PyFacts Benchmark Reference BenchmarkFacts Keeping.

Section Binary64.
Context {E : Type} `{Libm}.
Variable perf_counter : E → PrimFloat.float * E.
Variable str_float : PrimFloat.float → string.
Variable can_open : string → bool.
Variables (warmups iter : Z) (verbose : bool) (csv_file : option string).
Variable func : callable E.
Variable args : list string.

#[local] Abbreviation world := (world E PrimFloat.float).
#[local] Abbreviation invoke :=
  (wrapper_benchmark perf_counter str_float can_open
     warmups iter verbose csv_file func args).

(** An invocation that has nothing to fail on but the arithmetic. *)
Lemma invocation_outcome (w : world) :
  Binary64.nonnegative_squares →
  (0 < iter)%Z →
  (∀ ev, (fn_call func args ev).1 = Returns tt) →
  (∀ path, csv_file = Some path → can_open path = true) →
  ∃ wts mts,
    Reports.added w (invoke w).2 = slots true wts ++ slots false mts ∧
    length wts = Z.to_nat warmups ∧ length mts = Z.to_nat iter ∧
    ((∃ st, statistics iter mts = Returns st ∧ (invoke w).1 = Returns tt) ∨
     (∃ msg, statistics iter mts = Raises (OverflowError msg) ∧
             (invoke w).1 = Raises (OverflowError msg))).
Proof.
  intros Hsq Hiter Hret Hopen.
  assert (∀ e, ¬ can_raise func args e) as Hno.
  { intros e [ev Hev]. by rewrite Hret in Hev. }
  destruct (wrapper_benchmark_ending perf_counter str_float can_open
              warmups iter verbose csv_file func args w)
    as [e ? ? Hr|e ? ? ? ? Hr| e wts mts Hlw Hlm Hst Ho Hh
       | st wts mts Hlw Hlm Hst _ Ho Hh
       | st wts mts p _ _ _ Hp _ Hcan
       | st wts mts p Hlw Hlm Hst _ _ _ Ho Hh];
    try (by destruct (Hno e)).
  - exists wts, mts. rewrite (Reports.added_app _ _ _ Hh). repeat split; try done.
    right.
    destruct (Binary64.statistics_outcome iter mts Hsq Hiter)
      as [(st & Hst' & _)|(msg & Hst')].
    { intros ->. simpl in Hlm. lia. }
    + congruence.
    + exists msg. split; congruence.
  - exists wts, mts. rewrite (Reports.added_app _ _ _ Hh). repeat split; try done.
    left. by exists st.
  - rewrite (Hopen p Hp) in Hcan. done.
  - exists wts, mts. rewrite (Reports.added_app _ _ _ Hh). repeat split; try done.
    left. by exists st.
Qed.

(** X15. In binary64, an invocation with a positive iteration count, a
    callable that returns and a file that can be opened runs all its slots
    and then either returns normally or raises the [OverflowError] that the
    statistics of its measured timings raise (a square of line 76 that
    overflows): there is no empty [min], no division by zero, no index out
    of range and no domain error of [math.sqrt]. *)
Theorem valid_invocation_fails_on_overflow_only (w : world) :
  Binary64.nonnegative_squares →
  (0 < iter)%Z →
  (∀ ev, (fn_call func args ev).1 = Returns tt) →
  (∀ path, csv_file = Some path → can_open path = true) →
  ∃ wts mts,
    Reports.added w (invoke w).2 = slots true wts ++ slots false mts ∧
    length wts = Z.to_nat warmups ∧ length mts = Z.to_nat iter ∧
    ((∃ st, statistics iter mts = Returns st ∧ (invoke w).1 = Returns tt) ∨
     (∃ msg, statistics iter mts = Raises (OverflowError msg) ∧
             (invoke w).1 = Raises (OverflowError msg))).
Proof. exact (invocation_outcome w). Qed.

End Binary64.

Section Invariant.
Context {E T : Type} `{Arith T}.
Variable perf_counter : E → T * E.
Variable str_float : T → string.
Variable can_open : string → bool.
Variables (warmups iter : Z) (verbose : bool) (csv_file : option string).
Variable func : callable E.
Variable args : list string.

(** A property of the environment ... *)
Variable J : E → Prop.

(** ... that a clock reading and a call of the callable preserve. *)
Hypothesis clock_keeps : ∀ e, J e → J (perf_counter e).2.
Hypothesis call_keeps : ∀ e, J e → J (fn_call func args e).2.

#[local] Abbreviation world := (world E T).

Definition carries (w w' : world) : Prop := J (env w) → J (env w').

Lemma carries_refl (w : world) : carries w w.
Proof. by intros ?. Qed.

Lemma carries_trans (w1 w2 w3 : world) :
  carries w1 w2 → carries w2 w3 → carries w1 w3.
Proof. unfold carries. auto. Qed.

Lemma run_carries (fname : string) (b : bool) (i : Z) :
  keeps carries (run perf_counter func args fname b i).
Proof.
  intros w HJ. unfold run.
  pose proof (clock_keeps (env w) HJ) as H1.
  destruct (perf_counter (env w)) as [t0 e1]. simpl in H1.
  pose proof (call_keeps e1 H1) as H2.
  destruct (fn_call func args e1) as [[[]|x] e2]; simpl in H2; [|done].
  pose proof (clock_keeps e2 H2) as H3.
  destruct (perf_counter e2) as [t1 e3]. simpl in H3.
  rewrite bind_run.
  match goal with |- context [logging_info ?r ?w0] =>
    destruct (logging_info_frame r w0) as (Ho & _ & _ & _ & He);
    destruct (logging_info r w0) as [o w1] end.
  simpl in *. subst o. simpl. by rewrite He.
Qed.

(** The environment after an invocation. *)
Lemma invariant_carried (w : world) :
  J (env w) →
  J (env (wrapper_benchmark perf_counter str_float can_open
            warmups iter verbose csv_file func args w).2).
Proof.
  intros HJ.
  assert (keeps carries (wrapper_benchmark perf_counter str_float can_open
                           warmups iter verbose csv_file func args)) as Hk.
  { unfold wrapper_benchmark, write_csv. cbv zeta.
    repeat first
      [ apply run_carries
      | apply (keeps_lift carries carries_refl)
      | apply (keeps_ret carries carries_refl)
      | apply (keeps_modify carries); by intros ? ?
      | apply (keeps_if carries)
      | apply (keeps_for_in carries carries_refl carries_trans); intros ? ?
      | apply (keeps_bind carries carries_trans); [|intros ?]
      | intros w0 HJ0; unfold set_verbosity, modify; simpl;
        destruct verbose; [destruct (root_handlers w0)|]; exact HJ0
      | intros w0 HJ0; unfold open_w; destruct (can_open _); exact HJ0 ]. }
  by apply Hk.
Qed.

End Invariant.

End Completion.

(* ===================================================================== *)
(** ** The program run as a script: [test(fib)]                          *)
(* ===================================================================== *)

Module Program.
Import Py PyFacts Benchmark Reference Driver Workload.

Ltac each_of_trials H :=
  unfold trials in H;
  repeat (apply elem_of_cons in H as [[= -> ->]|H]);
  [ | | | | by apply elem_of_nil in H].

Ltac trial_files :=
  let f1 := eval vm_compute in (csv_name 1 16) in
  let f2 := eval vm_compute in (csv_name 2 8) in
  let f3 := eval vm_compute in (csv_name 4 4) in
  let f4 := eval vm_compute in (csv_name 8 2) in
  change (csv_name 1 16) with f1 in *;
  change (csv_name 2 8) with f2 in *;
  change (csv_name 4 4) with f3 in *;
  change (csv_name 8 2) with f4 in *.

Section Script.
Context {C : Type} `{Libm}.

(** The clock of the process, with a state of its own. *)
Variable perf : C → PrimFloat.float * C.
Variable str_float : PrimFloat.float → string.
Variable can_open : string → bool.

(** The frames a worker thread has for a call of [fib]. *)
Variable frames : nat.

(** The environment of the script: the clock, and the calls of [fib]. *)
Definition ticking (e : C * nat) : PrimFloat.float * (C * nat) :=
  let '(t, c) := perf e.1 in (t, (c, e.2)).

(** [fib] called as [func()]: [n] takes its default, 22, and the result
    is dropped. *)
Definition fib_workload : callable (C * nat) :=
  Callable "fib" (λ _ e,
    match fib frames 22 e.2 with
    | (Returns _, k) => (Returns tt, (e.1, k))
    | (Raises x, k) => (Raises x, (e.1, k))
    end).

(** Lines 158-159. *)
Definition main : M (world (tally (C * nat)) PrimFloat.float) unit :=
  test ticking str_float can_open fib_workload.

#[local] Abbreviation world := (world (tally (C * nat)) PrimFloat.float).

(** The calls of [fib] made so far. *)
Definition fib_calls (w : world) : nat := (inner (env w)).2.

Lemma fibonacci_23 : fibonacci 23 = 28657%Z.
Proof. by vm_compute. Qed.

Lemma fib_default (k : nat) :
  22 ≤ frames → fib frames 22 k = (Returns 28657%Z, k + Z.to_nat 57313).
Proof.
  intros Hframes. rewrite fib_run by lia.
  change (S (Z.to_nat 22)) with 23. rewrite fibonacci_23.
  by replace (2 * 28657 - 1)%Z with 57313%Z by lia.
Qed.

Lemma fib_workload_returns (a : list string) (e : C * nat) :
  22 ≤ frames → (fn_call fib_workload a e).1 = Returns tt.
Proof. intros Hframes. cbn [fib_workload fn_call]. by rewrite fib_default. Qed.

(** Calls of [fib] and invocations of the workload advance together. *)
Definition in_step (i0 k0 : nat) (tl : tally (C * nat)) : Prop :=
  (Z.of_nat (inner tl).2 + 57313 * Z.of_nat i0
   = Z.of_nat k0 + 57313 * Z.of_nat (invocations tl))%Z.

Lemma call_func_in_step (i0 k0 : nat) (tl : tally (C * nat)) :
  22 ≤ frames → in_step i0 k0 tl → in_step i0 k0 (call_func fib_workload tl).2.
Proof.
  intros Hframes. unfold in_step, call_func. cbn [fib_workload fn_call].
  rewrite fib_default by done. cbn [fst snd inner invocations]. lia.
Qed.

Lemma worker_in_step {A} (i0 k0 : nat) (xs : list A) :
  22 ≤ frames →
  ∀ tl, in_step i0 k0 tl →
        in_step i0 k0 (for_in xs tt (λ _ _, call_func fib_workload) tl).2.
Proof.
  intros Hframes. induction xs as [|x xs IH]; intros tl Htl; [done|].
  rewrite for_in_cons. pose proof (call_func_in_step i0 k0 tl Hframes Htl) as H1.
  destruct (call_func fib_workload tl) as [[[]|e] tl1]; [|done].
  by apply IH.
Qed.

Lemma threads_in_step {A} (i0 k0 : nat) (n_iter : Z) (xs : list A) :
  22 ≤ frames →
  ∀ tl, in_step i0 k0 tl →
        in_step i0 k0 (for_in ((λ _, iterate_f fib_workload n_iter) <$> xs) tt
                         (λ t _, thread_run t) tl).2.
Proof.
  intros Hframes. induction xs as [|x xs IH]; intros tl Htl; [done|].
  rewrite fmap_cons, for_in_cons. unfold thread_run at 1.
  pose proof (worker_in_step i0 k0 (range n_iter) Hframes tl Htl) as H1.
  change (for_in (range n_iter) tt (λ _ _, call_func fib_workload) tl)
    with (iterate_f fib_workload n_iter tl) in H1.
  destruct (iterate_f fib_workload n_iter tl) as [o tl1].
  by apply IH.
Qed.

Lemma harness_in_step (i0 k0 : nat) (n_threads n_iter : Z) (a : list string)
    (tl : tally (C * nat)) :
  22 ≤ frames → in_step i0 k0 tl →
  in_step i0 k0 (fn_call (wrapper fib_workload n_threads n_iter) a tl).2.
Proof.
  intros Hframes Htl. simpl. rewrite bind_run.
  pose proof (threads_in_step i0 k0 n_iter (range n_threads) Hframes tl Htl) as H1.
  destruct (for_in _ tt (λ t _, thread_run t) tl) as [[[]|e] tl1]; [|done].
  by rewrite DriverFacts.joined_threads.
Qed.

Lemma clock_in_step (i0 k0 : nat) (tl : tally (C * nat)) :
  in_step i0 k0 tl → in_step i0 k0 (clock ticking tl).2.
Proof.
  unfold in_step, clock, ticking. destruct tl as [[c k] i]. simpl.
  by destruct (perf c).
Qed.

(** One trial, when its file can be opened: unless its statistics overflow
    it returns, and it has invoked [fib(22)] once per worker iteration in
    each of its timed slots. *)
Lemma trial_outcome (n_threads n_iter : Z) (w : world) :
  Binary64.nonnegative_squares →
  22 ≤ frames → (0 < n_iter)%Z → can_open (csv_name n_threads n_iter) = true →
  (∃ w1 lines,
     trial ticking str_float can_open fib_workload n_threads n_iter w = (Returns tt, w1) ∧
     invocations (env w1) =
       invocations (env w) + Z.to_nat n_iter * (Z.to_nat n_threads * Z.to_nat n_iter) ∧
     Z.of_nat (fib_calls w1) =
       (Z.of_nat (fib_calls w)
        + 57313 * Z.of_nat (Z.to_nat n_iter * (Z.to_nat n_threads * Z.to_nat n_iter)))%Z ∧
     files w1 = <[csv_name n_threads n_iter := csv_header :: lines]> (files w)) ∨
  (∃ msg, (trial ticking str_float can_open fib_workload n_threads n_iter w).1
          = Raises (OverflowError msg)).
Proof.
  intros Hsq Hframes Hpos Hopen.
  destruct (trial ticking str_float can_open fib_workload n_threads n_iter w)
    as [o w1] eqn:Hrun.
  pose proof Hrun as Hrun'.
  rewrite DriverFacts.trial_run in Hrun' by (done || apply Names.csv_name_valid).
  destruct (Completion.invocation_outcome (clock ticking) str_float can_open
              0 n_iter false (Some (csv_name n_threads n_iter))
              (wrapper fib_workload n_threads n_iter) []
              (Names.announced fib_workload n_threads n_iter w) Hsq Hpos)
    as (wts & mts & _ & _ & _ & Hout).
  { intros ev. apply Harness.harness_returns. }
  { by intros path [= <-]. }
  unfold Names.announced in Hout. rewrite Hrun' in Hout. cbn [fst] in Hout.
  destruct Hout as [(st & _ & ->)|(msg & _ & ->)]; [left|right; by exists msg].
  pose proof (Completion.invariant_carried (clock ticking) str_float can_open
                0 n_iter false (Some (csv_name n_threads n_iter))
                (wrapper fib_workload n_threads n_iter) []
                (in_step (invocations (env w)) (fib_calls w))
                (clock_in_step _ _)
                (λ e, harness_in_step _ _ n_threads n_iter [] e Hframes)
                (Names.announced fib_workload n_threads n_iter w)) as Hstep.
  unfold Names.announced in Hstep. rewrite Hrun' in Hstep.
  specialize (Hstep eq_refl). unfold in_step in Hstep. cbn [snd] in Hstep.
  apply DriverFacts.trial_counts in Hrun as (Hn & lines & Hf & _);
    [ | intros a e; by apply fib_workload_returns | done | apply Names.csv_name_valid].
  exists w1, lines. unfold fib_calls in *. repeat split; try done.
  rewrite Hn in Hstep.
  generalize dependent (Z.to_nat n_iter * (Z.to_nat n_threads * Z.to_nat n_iter)).
  intros m _ Hstep. lia.
Qed.

(** X17. Run as a script, with 22 frames for [fib] in each worker thread
    and four files that can be opened, the program can only be stopped by
    an [OverflowError] of the statistics of a trial; otherwise it
    completes: it has then invoked [fib(22)] 480 times, which makes
    480 * 57313 calls of [fib], and it leaves the four files of the trials
    behind. *)
Theorem script_stops_on_overflow_only (w : world) :
  Binary64.nonnegative_squares →
  22 ≤ frames →
  (∀ t n, (t, n) ∈ trials → can_open (csv_name t n) = true) →
  (∃ w', main w = (Returns tt, w') ∧
         invocations (env w') = invocations (env w) + 480 ∧
         Z.of_nat (fib_calls w') = (Z.of_nat (fib_calls w) + 480 * 57313)%Z ∧
         ∀ t n, (t, n) ∈ trials → is_Some (files w' !! csv_name t n)) ∨
  (∃ msg, (main w).1 = Raises (OverflowError msg)).
Proof.
  intros Hsq Hframes Hopen. unfold main, test.
  rewrite bind_run.
  destruct (trial_outcome 1 16 w Hsq Hframes)
    as [(w1 & l1 & H1 & Hn1 & Hk1 & Hf1)|(msg & H1)];
    [lia | apply Hopen; set_solver | |
     right; exists msg; by destruct (trial _ _ _ _ 1 16 w) as [[[]|e] w1]; simplify_eq/=].
  rewrite H1, bind_run.
  destruct (trial_outcome 2 8 w1 Hsq Hframes)
    as [(w2 & l2 & H2 & Hn2 & Hk2 & Hf2)|(msg & H2)];
    [lia | apply Hopen; set_solver | |
     right; exists msg; by destruct (trial _ _ _ _ 2 8 w1) as [[[]|e] w2]; simplify_eq/=].
  rewrite H2, bind_run.
  destruct (trial_outcome 4 4 w2 Hsq Hframes)
    as [(w3 & l3 & H3 & Hn3 & Hk3 & Hf3)|(msg & H3)];
    [lia | apply Hopen; set_solver | |
     right; exists msg; by destruct (trial _ _ _ _ 4 4 w2) as [[[]|e] w3]; simplify_eq/=].
  rewrite H3.
  destruct (trial_outcome 8 2 w3 Hsq Hframes)
    as [(w4 & l4 & H4 & Hn4 & Hk4 & Hf4)|(msg & H4)];
    [lia | apply Hopen; set_solver | | right; by exists msg].
  left. exists w4.
  split; [exact H4|].
  split; [rewrite Hn4, Hn3, Hn2, Hn1; simpl; lia|].
  split; [rewrite Hk4, Hk3, Hk2, Hk1; simpl Z.to_nat; lia|].
  intros t n Hin. rewrite Hf4, Hf3, Hf2, Hf1. trial_files.
  each_of_trials Hin; trial_files.
  all: repeat (rewrite lookup_insert_ne by done).
  all: rewrite lookup_insert_eq; by eexists.
Qed.

End Script.

End Program.

(* ===================================================================== *)
(** ** The further facts, at concrete runs                               *)
(* ===================================================================== *)

Module Instances.
Import Py Benchmark Driver Reference Scenario Workload.

(** A file system on which nothing can be opened for writing. *)
Definition read_only (path : string) : bool := false.

(** One invocation of a wrapper that is not verbose, in a fresh process. *)
Definition quiet_run : outcome unit * world nat PrimFloat.float :=
  wrapper_benchmark (scripted half_seconds) str_any writable
    0 1 false (Some "out.csv") quick [] (fresh 0).

(** The sample run on the read-only file system. *)
Definition refused_run : outcome unit * world nat PrimFloat.float :=
  wrapper_benchmark (scripted half_seconds) str_any read_only
    2 3 true (Some "out.csv") quick ["20"] (fresh 0).

(** The environment of the script at its start: no clock reading, no call
    of [fib], no invocation. *)
Definition at_start : tally (nat * nat) := Tally (0%nat, 0%nat) 0.

(** X1, witness: the configuration of [waste_time], line 150. *)
Lemma decoration_succeeds_iff_witness :
  benchmark_decorator (scripted half_seconds) str_any writable
    1 5 true (Some ("out" +:+ ".csv")) quick (fresh 0)
  = (Returns (wrapper_benchmark (scripted half_seconds) str_any writable
                1 5 true (Some ("out" +:+ ".csv")) quick), fresh 0).
Proof.
  apply (proj1 (Names.decoration_succeeds_iff (scripted half_seconds) str_any writable
                  1 5 true (Some ("out" +:+ ".csv")) quick (fresh 0))).
  split; [lia|]. split; [lia|]. by exists "out".
Defined.

(** X4, witness: four workers of four rounds each, all failing at once. *)
Lemma failing_workload_is_called_once_per_worker_witness :
  (fn_call (wrapper failing 4 4) [] (Tally 0 0)).1 = Returns tt ∧
  invocations (fn_call (wrapper failing 4 4) [] (Tally 0 0)).2
    = invocations (Tally 0 0) + Z.to_nat 4.
Proof.
  apply (Harness.failing_workload_is_called_once_per_worker failing 4 4 [] (Tally 0 0)).
  - intros a e. by eexists.
  - lia.
Defined.

(** X18, witness: two workers of two calls each, taking turns. *)
Lemma every_schedule_counts_alike_witness :
  invocations (interleave quick [0; 1; 1; 0]%nat (replicate 2 2) (Tally 0 0)).2
  = invocations (fn_call (wrapper quick (Z.of_nat 2) (Z.of_nat 2)) [] (Tally 0 0)).2.
Proof.
  apply (Harness.every_schedule_counts_alike quick [0; 1; 1; 0]%nat 2 2 [] (Tally 0 0)).
  - intros a e. reflexivity.
  - reflexivity.
Defined.

(** X6, witness: the sample run after a quiet one. *)
Lemma verbose_after_quiet_logs_nothing_witness :
  stderr (wrapper_benchmark (scripted half_seconds) str_any writable
            2 3 true (Some "out.csv") quick ["20"] quiet_run.2).2
  = stderr quiet_run.2.
Proof.
  apply (Logging.verbose_after_quiet_logs_nothing
           (scripted half_seconds) str_any writable
           0 1 (Some "out.csv") quick []
           2 3 (Some "out.csv") quick ["20"] (fresh 0) quiet_run.2).
  by vm_compute.
Defined.

(** X7, witness: the sample run. *)
Lemma first_verbose_invocation_logs_every_slot_witness :
  stderr sample_run.2
  = stderr (fresh 0)
    ++ (Reports.added (fresh 0) sample_run.2
          ≫= Logging.log_of (BenchmarkFacts.display_name quick ["20"])).
Proof.
  apply (Logging.first_verbose_invocation_logs_every_slot
           (scripted half_seconds) str_any writable
           2 3 (Some "out.csv") quick ["20"] (fresh 0)).
  reflexivity.
Defined.

(** X8, witness: the sample run and a file it is not configured for. *)
Lemma other_files_untouched_witness :
  files sample_run.2 !! "other.csv" = files (fresh 0) !! "other.csv".
Proof.
  apply (Files.other_files_untouched
           (scripted half_seconds) str_any writable
           2 3 true (Some "out.csv") quick ["20"] (fresh 0) "other.csv").
  discriminate.
Defined.

(** X9, witness: the sample run on the read-only file system. *)
Lemma unopenable_file_aborts_witness :
  refused_run.1 ≠ Returns tt ∧
  files refused_run.2 = files (fresh 0) ∧
  EndBanner ∉ Files.printed (fresh 0) refused_run.2.
Proof.
  apply (Files.unopenable_file_aborts
           (scripted half_seconds) str_any read_only
           2 3 true (Some "out.csv") quick ["20"] (fresh 0) "out.csv").
  - reflexivity.
  - discriminate.
  - reflexivity.
Defined.

(** X10, witness: the timings 1 and 3. *)
Lemma extremes_are_sample_members_witness :
  ∃ st, statistics 2 [float_of_Z 1; float_of_Z 3] = Returns st ∧
        time_min st ∈ [float_of_Z 1; float_of_Z 3] ∧
        time_max st ∈ [float_of_Z 1; float_of_Z 3].
Proof.
  eexists. split; [vm_compute; reflexivity|].
  apply (Extremes.extremes_are_sample_members 2 [float_of_Z 1; float_of_Z 3]).
  vm_compute. reflexivity.
Defined.

(** X12, witness: three timings of 0.1. *)
Lemma variance_is_never_negative_witness :
  (∃ st, statistics 3 [tenth; tenth; tenth] = Returns st ∧
         PrimFloat.ltb (var st) PrimFloat.zero = false ∧
         stdev st = PrimFloat.sqrt (var st)) ∨
  (∃ msg, statistics 3 [tenth; tenth; tenth] = Raises (OverflowError msg)).
Proof.
  apply (Binary64.variance_is_never_negative 3 [tenth; tenth; tenth]).
  - exact Evaluated.correctly_rounded_squares.
  - lia.
  - discriminate.
Defined.

(** X13, witness: [fib(5)] with five frames. *)
Lemma fib_computes_fibonacci_witness :
  fib 5 5 0 =
  (Returns (fibonacci (S (Z.to_nat 5))),
   0 + Z.to_nat (2 * fibonacci (S (Z.to_nat 5)) - 1)).
Proof. apply (fib_computes_fibonacci 5 5 0). lia. Defined.

(** X14, witness: [fib(5)] with three frames. *)
Lemma fib_exceeds_recursion_limit_witness :
  (fib 3 5 0).1 = Raises (Uncaught "RecursionError").
Proof. apply (fib_exceeds_recursion_limit 3 5 0). lia. Defined.

(** X15, witness: the run on the clock of squares. *)
Lemma valid_invocation_fails_on_overflow_only_witness :
  ∃ wts mts,
    Reports.added (fresh 0) varied_run.2 = slots true wts ++ slots false mts ∧
    length wts = Z.to_nat 2 ∧ length mts = Z.to_nat 3 ∧
    ((∃ st, statistics 3 mts = Returns st ∧ varied_run.1 = Returns tt) ∨
     (∃ msg, statistics 3 mts = Raises (OverflowError msg) ∧
             varied_run.1 = Raises (OverflowError msg))).
Proof.
  apply (Completion.valid_invocation_fails_on_overflow_only
           (scripted square_seconds) str_any writable
           2 3 true (Some "out.csv") quick ["20"] (fresh 0)).
  - exact Evaluated.correctly_rounded_squares.
  - lia.
  - intros ev. reflexivity.
  - intros path _. reflexivity.
Defined.

(** X17, witness: the script on the scripted clock, with exactly 22 frames
    per worker. *)
Lemma script_stops_on_overflow_only_witness :
  (∃ w', Program.main (scripted half_seconds) str_any writable 22
           (fresh at_start) = (Returns tt, w') ∧
         invocations (env w') = invocations (env (fresh at_start)) + 480 ∧
         Z.of_nat (Program.fib_calls w')
           = (Z.of_nat (Program.fib_calls (fresh at_start)) + 480 * 57313)%Z ∧
         ∀ t n, (t, n) ∈ trials → is_Some (files w' !! csv_name t n)) ∨
  (∃ msg, (Program.main (scripted half_seconds) str_any writable 22
             (fresh at_start)).1 = Raises (OverflowError msg)).
Proof.
  apply (Program.script_stops_on_overflow_only (scripted half_seconds) str_any writable 22
           (fresh at_start)).
  - exact Evaluated.correctly_rounded_squares.
  - lia.
  - intros t n _. reflexivity.
Defined.

End Instances.
